(** * eotel: the correlated logger of [logger.go] and the request
    middleware of [middleware.go], embedded as a state-and-outcome monad
    over the collaborating backends (zap, the OpenTelemetry tracer and
    meter, the Loki channel, Sentry, gin). *)

From Stdlib Require Import ZArith String List Sorted Permutation Lia.
From stdpp Require Import base option list strings gmap pretty.

Local Open Scope Z_scope.
Local Open Scope string_scope.
Local Open Scope list_scope.

(** ** Values that travel through the logger *)

(** The severities [log] is called with (lines 123-128): the five literal
    strings "info", "error", "debug", "warn" and "fatal". *)
Inductive Level := LvInfo | LvError | LvDebug | LvWarn | LvFatal.

Definition levelString (lv : Level) : string :=
  match lv with
  | LvInfo => "info"
  | LvError => "error"
  | LvDebug => "debug"
  | LvWarn => "warn"
  | LvFatal => "fatal"
  end.

(** A non-nil Go [error]; [errMsg] is what [err.Error()] returns.  A nil
    [error] is [None] at type [option GoError]. *)
Record GoError := mkError { errMsg : string }.

(** Values of type [any] handed to [WithField] or raised by [panic]. *)
Inductive GoValue :=
| VString (s : string)
| VInt (z : Z)
| VBool (b : bool).

(** [fmt.Sprintf("%v", value)]. *)
Definition Sprintf_v (v : GoValue) : string :=
  match v with
  | VString s => s
  | VInt z => pretty z
  | VBool true => "true"
  | VBool false => "false"
  end.

(** What a panicking goroutine carries: the run-time fault of calling a
    method through a nil interface or nil pointer, or the argument of an
    explicit [panic(v)]. *)
Inductive PanicValue :=
| NilPointerDereference
| PanicAny (v : GoValue).

Definition nilDerefText : string :=
  "runtime error: invalid memory address or nil pointer dereference".

(** [fmt.Errorf("panic: %v", rec)] (line 110). *)
Definition Errorf_panic (rec : PanicValue) : GoError :=
  match rec with
  | NilPointerDereference => mkError ("panic: " +:+ nilDerefText)
  | PanicAny v => mkError ("panic: " +:+ Sprintf_v v)
  end.

(** ** zap fields *)

Inductive FieldValue :=
| FvString (s : string)
| FvAny (v : GoValue)
| FvError (e : GoError).

Record Field := mkField { fkey : string; fval : FieldValue }.

Definition zap_String (k v : string) : Field := mkField k (FvString v).
Definition zap_Any (k : string) (v : GoValue) : Field := mkField k (FvAny v).
Definition zap_Error (e : GoError) : Field := mkField "error" (FvError e).

(** ** span attributes *)

(** [attribute.Float64("duration_ms", time.Since(l.start).Seconds()*1000)]:
    the float is kept symbolic, as the elapsed nanoseconds it is computed
    from. *)
Inductive AttrValue :=
| AvString (s : string)
| AvFloat64Ms (elapsed_ns : Z).

Record KeyValue := mkKV { Key : string; Value : AttrValue }.

Definition attribute_String (k v : string) : KeyValue := mkKV k (AvString v).
Definition attribute_Float64Ms (k : string) (ns : Z) : KeyValue :=
  mkKV k (AvFloat64Ms ns).

(** ** Handles of the backends *)

(** A span as handed out by [tracer.Start]: its number in the tracing
    backend and the two identifiers of its [SpanContext], already in the
    form [TraceID().String()] and [SpanID().String()] produce. *)
Record Span := mkSpan { spanNo : nat; traceIDString : string; spanIDString : string }.

Record Tracer := mkTracer { tracerName : string }.
Record Meter := mkMeter { meterName : string }.
Record Int64Counter := mkCounter { counterName : string }.
Record Float64Histogram := mkHistogram { histogramName : string }.

(** [zap.L()], the process-wide zap logger. *)
Inductive ZapLogger := zap_L.

(** The one implementation of the [Exporter] interface (line 283). *)
Inductive Exporter := defaultExporter.

(** Addresses of [Eotel] structs. *)
Definition loc := positive.

(** A value of the interface type [Logger]: the nil interface, a pointer
    to an [Eotel] (the pointer itself may be nil), or an implementation
    from outside this package. *)
Inductive Logger :=
| NilLogger
| EotelPtr (p : option loc)
| OtherLogger (impl : nat).

(** ** context.Context *)

(** A context is the chain of [WithValue] wrappers around
    [context.Background()], innermost wrapper first.  Three kinds of key
    occur: the private [loggerCtxKey{}], the tracing library's own span
    key, and anything else. *)
Inductive CtxEntry :=
| CtxLogger (lg : Logger)
| CtxSpan (sp : Span)
| CtxOther (k : string) (v : GoValue).

Definition Context := list CtxEntry.

(** [ctx.Value(loggerCtxKey{})]: the innermost value stored under the
    private key; [NilLogger] (a nil [any]) when there is none. *)
Fixpoint ctxLoggerValue (c : Context) : Logger :=
  match c with
  | [] => NilLogger
  | CtxLogger lg :: _ => lg
  | _ :: c' => ctxLoggerValue c'
  end.

(** ** Config (config.go lines 5-17) *)

Record Config := mkConfig {
  ServiceName : string;
  JobName : string;
  SentryDSN : string;
  SentryOrg : string;
  LokiURL : string;
  OtelCollector : string;
  EnableTracing : bool;
  EnableMetrics : bool;
  EnableSentry : bool;
  EnableLoki : bool;
  LogLevel : string
}.

(** ** The logger struct (lines 53-67) *)

(** [logger], [tracer], [meter] and [exporter] are set by both
    constructors, [New] and [Child], and never assigned afterwards: they
    are plain handles.  [span], the two instruments and [err] can be nil:
    they are options. *)
Record Eotel := mkEotel {
  ctx : Context;
  logger : ZapLogger;
  tracer : Tracer;
  meter : Meter;
  span : option Span;
  logCounter : option Int64Counter;
  durationHist : option Float64Histogram;
  fields : list Field;
  attrs : list KeyValue;
  err : option GoError;
  name : string;
  start : Z;
  exporter : Exporter
}.

(** ** What the backends see *)

(** Modelled from the spec: the type [LokiEntry] is declared outside
    logger.go.  It has the two fields [defaultExporter.Send] fills in
    (lines 286-295), the wire shape the spec gives for an export job: a
    label set and a message string. *)
Record LokiEntry := mkLokiEntry {
  Labels : gmap string string;
  Message : string
}.

(** One constructor per call that leaves the package. *)
Inductive Event :=
| TracerStart (t : Tracer) (spanName : string) (sp : Span)
| SpanSetAttributes (sp : Span) (kvs : list KeyValue)
| SpanRecordError (sp : Span) (e : GoError)
| SpanEnd (sp : Span)
| ZapWrite (lv : Level) (msg : string) (fs : list Field)
| LogChanSend (entry : LokiEntry)
| CounterAdd (c : Int64Counter) (n : Z) (levelAttr : string)
| HistogramRecord (h : Float64Histogram) (elapsed_ns : Z) (levelAttr : string)
| SentryCapture (e : GoError) (tags : gmap string string) (extras : gmap string GoValue)
| GinAbortWithStatus (code : Z).

(** The request being served: what the middleware reads from
    [*gin.Context] and the context of [c.Request]. *)
Record GinContext := mkGin {
  reqMethod : string;
  reqFullPath : string;
  reqURLPath : string;
  reqClientIP : string;
  reqUserAgent : string;
  reqCtx : Context
}.

(** ** The world the code runs in *)

Record World := mkWorld {
  globalCfg : Config;
  heap : gmap loc Eotel;
  nextSpan : nat;
  spanIDs : nat -> string * string;
  clock : Z;
  gin : GinContext;
  trace : list Event
}.

Definition setHeap (h : gmap loc Eotel) (w : World) : World :=
  mkWorld (globalCfg w) h (nextSpan w) (spanIDs w) (clock w) (gin w) (trace w).

Definition setNextSpan (n : nat) (w : World) : World :=
  mkWorld (globalCfg w) (heap w) n (spanIDs w) (clock w) (gin w) (trace w).

Definition setGin (g : GinContext) (w : World) : World :=
  mkWorld (globalCfg w) (heap w) (nextSpan w) (spanIDs w) (clock w) g (trace w).

Definition setTrace (t : list Event) (w : World) : World :=
  mkWorld (globalCfg w) (heap w) (nextSpan w) (spanIDs w) (clock w) (gin w) t.

(** ** Outcomes and the monad *)

(** A call returns, unwinds with a panic, or ends the process
    ([os.Exit]). *)
Inductive Outcome (A : Type) :=
| Returned (a : A)
| Panicked (v : PanicValue)
| Exited (code : Z).
Arguments Returned {A} a.
Arguments Panicked {A} v.
Arguments Exited {A} code.

Definition M (A : Type) : Type := World -> World * Outcome A.

Global Instance M_ret : MRet M := fun A a w => (w, Returned a).

Global Instance M_bind : MBind M := fun A B f m w =>
  match m w with
  | (w', Returned a) => f a w'
  | (w', Panicked v) => (w', Panicked v)
  | (w', Exited c) => (w', Exited c)
  end.

Definition panic {A} (v : PanicValue) : M A := fun w => (w, Panicked v).
Definition os_Exit {A} (code : Z) : M A := fun w => (w, Exited code).
Definition getWorld : M World := fun w => (w, Returned w).
Definition emit (e : Event) : M unit :=
  fun w => (setTrace (trace w ++ [e]) w, Returned tt).

(** [*l]: reading through a pointer that holds no struct is the nil
    dereference. *)
Definition load (l : loc) : M Eotel := fun w =>
  match heap w !! l with
  | Some e => (w, Returned e)
  | None => (w, Panicked NilPointerDereference)
  end.

Definition store (l : loc) (e : Eotel) : M unit :=
  fun w => (setHeap (<[l := e]> (heap w)) w, Returned tt).

(** [&Eotel{...}]: a fresh address. *)
Definition alloc (e : Eotel) : M loc := fun w =>
  let l := fresh (dom (heap w)) in
  (setHeap (<[l := e]> (heap w)) w, Returned l).

(** [time.Now()]. *)
Definition time_Now : M Z := fun w => (w, Returned (clock w)).

(** [defer d] around [body]: [d] runs when [body] returns or panics, not
    when the process exits; a deferred call that does not call [recover]
    leaves the outcome of [body] as it is, unless it panics or exits
    itself. *)
Definition defer_ {A} (d : M unit) (body : M A) : M A := fun w =>
  match body w with
  | (w', Exited c) => (w', Exited c)
  | (w', o) =>
      match d w' with
      | (w'', Returned _) => (w'', o)
      | (w'', Panicked v) => (w'', Panicked v)
      | (w'', Exited c) => (w'', Exited c)
      end
  end.

(** [defer g()] where the deferred function [g] itself calls [recover()]:
    [g] is given what [recover()] returns, and a panic of [body] is
    stopped there. *)
Definition deferRecovering (g : option PanicValue -> M unit) (body : M unit) : M unit :=
  fun w =>
  match body w with
  | (w', Exited c) => (w', Exited c)
  | (w', Returned _) => g None w'
  | (w', Panicked v) => g (Some v) w'
  end.

(** ** Collaborators *)

(** [tracer.Start(ctx, name)]: the backend hands out the next span and a
    context that carries it. *)
Definition tracer_Start (t : Tracer) (c : Context) (spanName : string)
  : M (Context * Span) := fun w =>
  let n := nextSpan w in
  let sp := mkSpan n (fst (spanIDs w n)) (snd (spanIDs w n)) in
  (setTrace (trace w ++ [TracerStart t spanName sp]) (setNextSpan (S n) w),
   Returned (CtxSpan sp :: c, sp)).

(** The five entry points of [*zap.Logger].  [Fatal] writes the entry and
    then calls [os.Exit(1)]: that is zap's contract for the fatal level,
    whatever the configured minimum level. *)
Definition zapLogger_Info (z : ZapLogger) (msg : string) (fs : list Field) : M unit :=
  emit (ZapWrite LvInfo msg fs).
Definition zapLogger_Error (z : ZapLogger) (msg : string) (fs : list Field) : M unit :=
  emit (ZapWrite LvError msg fs).
Definition zapLogger_Debug (z : ZapLogger) (msg : string) (fs : list Field) : M unit :=
  emit (ZapWrite LvDebug msg fs).
Definition zapLogger_Warn (z : ZapLogger) (msg : string) (fs : list Field) : M unit :=
  emit (ZapWrite LvWarn msg fs).
Definition zapLogger_Fatal (z : ZapLogger) (msg : string) (fs : list Field) : M unit :=
  emit (ZapWrite LvFatal msg fs) ;; os_Exit 1.

(** [c.Add(ctx, 1, metric.WithAttributes(attribute.String("level", level)))]
    through the interface value [c]: a nil interface has no method to
    call. *)
Definition Int64Counter_Add (c : option Int64Counter) (n : Z) (level : string) : M unit :=
  match c with
  | Some c' => emit (CounterAdd c' n level)
  | None => panic NilPointerDereference
  end.

Definition Float64Histogram_Record (h : option Float64Histogram) (ns : Z) (level : string)
  : M unit :=
  match h with
  | Some h' => emit (HistogramRecord h' ns level)
  | None => panic NilPointerDereference
  end.

(** [initMetrics] (lines 277-281). *)
Definition initMetrics (m : Meter) : Int64Counter * Float64Histogram :=
  (mkCounter "log_total", mkHistogram "log_duration_ms").

(** [defaultExporter.Send] (lines 285-296): one send on [logChan], the
    channel of the export queue.  Modelled from the spec: [logChan] is
    declared outside logger.go; the send is recorded as the hand-over of
    the entry to the queue, and whether it blocks on a full queue is not
    modelled. *)
Definition Send (d : Exporter) (level msg traceID spanID : string) : M unit :=
  w ← getWorld;
  emit (LogChanSend
          (mkLokiEntry
             (list_to_map [("level", level);
                           ("job", JobName (globalCfg w));
                           ("service", ServiceName (globalCfg w));
                           ("trace_id", traceID);
                           ("span_id", spanID)])
             msg)).

(** [defaultExporter.CaptureError] (lines 298-300) passes its arguments
    to the package-level [CaptureError].  Modelled from the spec: that
    function is declared outside logger.go; it is the error-reporting
    collaborator, which receives the error with its tags and extras. *)
Definition CaptureError (d : Exporter) (e : GoError)
    (tags : gmap string string) (extras : gmap string GoValue) : M unit :=
  emit (SentryCapture e tags extras).

(** [sort.SliceStable(l.attrs, less)] with
    [less(i, j) = string(attrs[i].Key) < string(attrs[j].Key)]: the result
    is fixed by the contract of a stable sort, which this insertion sort
    implements. *)
Definition keyLess (a b : KeyValue) : bool := String.ltb (Key a) (Key b).

Fixpoint insertStable (x : KeyValue) (l : list KeyValue) : list KeyValue :=
  match l with
  | [] => [x]
  | y :: l' => if keyLess y x then y :: insertStable x l' else x :: y :: l'
  end.

Fixpoint sortSliceStable (l : list KeyValue) : list KeyValue :=
  match l with
  | [] => []
  | x :: l' => insertStable x (sortSliceStable l')
  end.

(** ** The logger's methods *)

(** [New] (lines 69-83). *)
Definition New (c : Context) (nm : string) : M loc :=
  w ← getWorld;
  let m := mkMeter (ServiceName (globalCfg w)) in
  let ch := initMetrics m in
  now ← time_Now;
  alloc {| ctx := c;
           logger := zap_L;
           tracer := mkTracer (ServiceName (globalCfg w));
           meter := m;
           span := None;
           logCounter := Some (fst ch);
           durationHist := Some (snd ch);
           fields := [];
           attrs := [];
           err := None;
           name := nm;
           start := now;
           exporter := defaultExporter |}.

(** [Inject] (lines 85-87). *)
Definition Inject (l : loc) (c : Context) (lg : Logger) : Context :=
  CtxLogger lg :: c.

(** [FromContext] (lines 89-96).  Both returns wrap an [*Eotel] in the
    [Logger] interface, so the result is kept as the pointer: [Some p], or
    [None] for a nil [*Eotel]. *)
Definition FromContext (l : loc) (c : Context) (nm : string) : M (option loc) :=
  match ctxLoggerValue c with
  | NilLogger => p ← New c nm; mret (Some p)
  | EotelPtr lg => mret lg
  | OtherLogger _ => p ← New c nm; mret (Some p)
  end.

(** [FromGin] (lines 98-100). *)
Definition FromGin (l : loc) (nm : string) : M (option loc) :=
  w ← getWorld;
  FromContext l (reqCtx (gin w)) nm.

Definition setReqCtx (c : Context) (g : GinContext) : GinContext :=
  mkGin (reqMethod g) (reqFullPath g) (reqURLPath g) (reqClientIP g)
        (reqUserAgent g) c.

(** [c.Request = c.Request.WithContext(ctx)]. *)
Definition setRequestContext (c : Context) : M unit :=
  fun w => (setGin (setReqCtx c (gin w)) w, Returned tt).

(** [InjectToGin] (lines 102-105). *)
Definition InjectToGin (l : loc) (lg : Logger) : M unit :=
  w ← getWorld;
  setRequestContext (Inject l (reqCtx (gin w)) lg).

(** [startSpanIfNeeded] (lines 248-252). *)
Definition startSpanIfNeeded (l : loc) : M unit :=
  e ← load l;
  match span e with
  | None =>
      '(c, sp) ← tracer_Start (tracer e) (ctx e) (name e);
      store l (mkEotel c (logger e) (tracer e) (meter e) (Some sp)
                 (logCounter e) (durationHist e) (fields e) (attrs e)
                 (err e) (name e) (start e) (exporter e))
  | Some _ => mret tt
  end.

(** [endSpan] (lines 254-275). *)
Definition endSpan (l : loc) (msg level : string) : M unit :=
  e ← load l;
  now ← time_Now;
  let durationMs := now - start e in
  let attrs1 := attrs e ++ [attribute_String "log.message" msg;
                            attribute_String "log.level" level;
                            attribute_Float64Ms "duration_ms" durationMs] in
  let attrs2 := sortSliceStable attrs1 in
  store l (mkEotel (ctx e) (logger e) (tracer e) (meter e) (span e)
             (logCounter e) (durationHist e) (fields e) attrs2
             (err e) (name e) (start e) (exporter e)) ;;
  match span e with
  | Some sp =>
      emit (SpanSetAttributes sp attrs2) ;;
      match err e with
      | Some er => emit (SpanRecordError sp er)
      | None => mret tt
      end ;;
      emit (SpanEnd sp)
  | None => mret tt
  end ;;
  Int64Counter_Add (logCounter e) 1 level ;;
  Float64Histogram_Record (durationHist e) durationMs level.

(** [log] (lines 135-166).  The [switch] has no default case. *)
Definition log (l : loc) (level msg : string) : M unit :=
  startSpanIfNeeded l ;;
  e ← load l;
  match span e with
  | None => panic NilPointerDereference
  | Some sc =>
      w ← getWorld;
      let traceID := traceIDString sc in
      let fs := [zap_String "trace_id" traceID;
                 zap_String "span_id" (spanIDString sc);
                 zap_String "job" (JobName (globalCfg w));
                 zap_String "service" (ServiceName (globalCfg w));
                 zap_String "level" level] ++ fields e in
      (if String.eqb level "info" then zapLogger_Info (logger e) msg fs
       else if String.eqb level "error" then zapLogger_Error (logger e) msg fs
       else if String.eqb level "debug" then zapLogger_Debug (logger e) msg fs
       else if String.eqb level "warn" then zapLogger_Warn (logger e) msg fs
       else if String.eqb level "fatal" then zapLogger_Fatal (logger e) msg fs
       else mret tt) ;;
      (if EnableLoki (globalCfg w)
       then Send (exporter e) level msg traceID (spanIDString sc)
       else mret tt) ;;
      endSpan l msg level
  end.

(** The emission methods (lines 123-133). *)
Definition Info (l : loc) (msg : string) : M unit := log l "info" msg.
Definition Error (l : loc) (msg : string) : M unit := log l "error" msg.
Definition Debug (l : loc) (msg : string) : M unit := log l "debug" msg.
Definition Warn (l : loc) (msg : string) : M unit := log l "warn" msg.
Definition Fatal (l : loc) (msg : string) : M unit :=
  log l "fatal" msg ;;
  e ← load l;
  match span e with
  | Some sp => emit (SpanEnd sp)
  | None => mret tt
  end ;;
  os_Exit 1.

(** An emission at a given severity: the method of that name. *)
Definition emitAt (lv : Level) (l : loc) (msg : string) : M unit :=
  match lv with
  | LvInfo => Info l msg
  | LvError => Error l msg
  | LvDebug => Debug l msg
  | LvWarn => Warn l msg
  | LvFatal => Fatal l msg
  end.

(** [WithField] (lines 168-172); the receiver is returned. *)
Definition WithField (l : loc) (key : string) (value : GoValue) : M loc :=
  e ← load l;
  store l (mkEotel (ctx e) (logger e) (tracer e) (meter e) (span e)
             (logCounter e) (durationHist e)
             (fields e ++ [zap_Any key value])
             (attrs e ++ [attribute_String key (Sprintf_v value)])
             (err e) (name e) (start e) (exporter e)) ;;
  mret l.

(** The call chain [l.WithField(k1, v1).WithField(k2, v2)...]; keys may
    repeat. *)
Fixpoint withFieldCalls (l : loc) (kvs : list (string * GoValue)) : M loc :=
  match kvs with
  | [] => mret l
  | (k, v) :: kvs' => l' ← WithField l k v; withFieldCalls l' kvs'
  end.

(** [WithFields] (lines 174-179).  [m] lists the pairs of the Go map in
    the order [range] happens to yield them; the loop calls [l.WithField]
    for each and the receiver is returned. *)
Definition WithFields (l : loc) (m : list (string * GoValue)) : M loc :=
  withFieldCalls l m ;; mret l.

(** [WithError] (lines 181-189). *)
Definition WithError (l : loc) (er : option GoError) : M loc :=
  match er with
  | Some x =>
      e ← load l;
      store l (mkEotel (ctx e) (logger e) (tracer e) (meter e) (span e)
                 (logCounter e) (durationHist e)
                 (fields e ++ [zap_Error x])
                 (attrs e ++ [attribute_String "error" (errMsg x)])
                 (Some x) (name e) (start e) (exporter e)) ;;
      CaptureError (exporter e) x ∅ {["error" := VString (errMsg x)]} ;;
      mret l
  | None => mret l
  end.

(** [Child] (lines 215-226): the struct literal names seven fields; the
    others keep their zero value. *)
Definition Child (l : loc) (nm : string) : M loc :=
  e ← load l;
  '(c, sp) ← tracer_Start (tracer e) (ctx e) nm;
  now ← time_Now;
  alloc {| ctx := c;
           span := Some sp;
           logger := logger e;
           tracer := tracer e;
           meter := meter e;
           start := now;
           exporter := exporter e;
           logCounter := None;
           durationHist := None;
           fields := [];
           attrs := [];
           err := None;
           name := "" |}.

(** [Ctx] (lines 228-230). *)
Definition Ctx (l : loc) : M Context := e ← load l; mret (ctx e).

(** A method called through a [Logger] that wraps a nil [*Eotel] faults
    at its first field access. *)
Definition receiver (lg : option loc) : M loc :=
  match lg with
  | Some p => mret p
  | None => panic NilPointerDereference
  end.

(** [RecoverPanic] (lines 107-121) only builds the closure of lines
    108-120.  The closure is modelled as a function of what [recover()]
    returns at the moment it runs.  [log == nil] compares an interface
    that always wraps an [*Eotel], so the fallback [log = l] is never
    taken. *)
Definition RecoverPanic (l : loc) : option PanicValue -> M unit := fun rec =>
  match rec with
  | Some r =>
      let er := Errorf_panic r in
      lg ← FromGin l "panic";
      p ← receiver lg;
      p' ← WithError p (Some er);
      Error p' "unhandled panic" ;;
      emit (GinAbortWithStatus 500)
  | None => mret tt
  end.

(** A call whose result is dropped. *)
Definition discard {A} (x : A) : M unit := mret tt.

(** [Middleware] (middleware.go lines 9-32); [next] is [c.Next()], the
    rest of the handler chain.  Line 28 is [defer logger.RecoverPanic(c)]:
    the deferred call is [RecoverPanic] itself, and the closure it returns
    is dropped without being called. *)
Definition Middleware (nm : string) (next : M unit) : M unit :=
  w ← getWorld;
  let c := gin w in
  '(ctx1, sp) ← tracer_Start (mkTracer (ServiceName (globalCfg w))) (reqCtx c)
                  (reqMethod c +:+ " " +:+ reqFullPath c);
  defer_ (emit (SpanEnd sp))
    (l0 ← New ctx1 nm;
     l1 ← WithField l0 "method" (VString (reqMethod c));
     l2 ← WithField l1 "path" (VString (reqURLPath c));
     l3 ← WithField l2 "ip" (VString (reqClientIP c));
     lg ← WithField l3 "ua" (VString (reqUserAgent c));
     let ctx2 := Inject lg ctx1 (EotelPtr (Some lg)) in
     setRequestContext ctx2 ;;
     defer_ (discard (RecoverPanic lg))
       next).

(** ** Reading a trace *)

Definition isZapWrite (ev : Event) : bool :=
  match ev with ZapWrite _ _ _ => true | _ => false end.
Definition isCounterAdd (ev : Event) : bool :=
  match ev with CounterAdd _ _ _ => true | _ => false end.
Definition isHistogramRecord (ev : Event) : bool :=
  match ev with HistogramRecord _ _ _ => true | _ => false end.
Definition isLogChanSend (ev : Event) : bool :=
  match ev with LogChanSend _ => true | _ => false end.
Definition isGinAbort (ev : Event) : bool :=
  match ev with GinAbortWithStatus _ => true | _ => false end.

Definition count (p : Event -> bool) (t : list Event) : nat :=
  length (List.filter p t).

(** The attribute lists handed to [span.SetAttributes], oldest first. *)
Definition attrSnapshots (t : list Event) : list (list KeyValue) :=
  omap (fun ev => match ev with SpanSetAttributes _ kvs => Some kvs | _ => None end) t.

(** The field lists handed to zap, oldest first. *)
Definition zapFieldLists (t : list Event) : list (list Field) :=
  omap (fun ev => match ev with ZapWrite _ _ fs => Some fs | _ => None end) t.

(** The spans whose [End] was called, oldest call first. *)
Definition endedSpans (t : list Event) : list Span :=
  omap (fun ev => match ev with SpanEnd sp => Some sp | _ => None end) t.

(** The three effects of an emission that the ordering property is
    about. *)
Inductive Effect := LogWrite | CountIncrement | Enqueue.

Definition effects (t : list Event) : list Effect :=
  omap (fun ev => match ev with
                  | ZapWrite _ _ _ => Some LogWrite
                  | CounterAdd _ _ _ => Some CountIncrement
                  | LogChanSend _ => Some Enqueue
                  | _ => None
                  end) t.

(** ** What one emission does, in closed form *)

(** The span an emission on [e] works with: the one it holds, else the
    one the tracer hands out next. *)
Definition emissionSpan (w : World) (e : Eotel) : Span :=
  match span e with
  | Some sp => sp
  | None => mkSpan (nextSpan w) (fst (spanIDs w (nextSpan w))) (snd (spanIDs w (nextSpan w)))
  end.

(** The logger after [startSpanIfNeeded]. *)
Definition started (w : World) (e : Eotel) : Eotel :=
  match span e with
  | Some _ => e
  | None => mkEotel (CtxSpan (emissionSpan w e) :: ctx e) (logger e) (tracer e) (meter e)
              (Some (emissionSpan w e)) (logCounter e) (durationHist e) (fields e)
              (attrs e) (err e) (name e) (start e) (exporter e)
  end.

Definition startPart (w : World) (e : Eotel) : list Event :=
  match span e with
  | Some _ => []
  | None => [TracerStart (tracer e) (name e) (emissionSpan w e)]
  end.

(** What [endSpan] appends to the attribute buffer, before sorting. *)
Definition closingAttrs (now : Z) (e : Eotel) (msg level : string) : list KeyValue :=
  [attribute_String "log.message" msg;
   attribute_String "log.level" level;
   attribute_Float64Ms "duration_ms" (now - start e)].

Definition finalAttrs (now : Z) (e : Eotel) (msg level : string) : list KeyValue :=
  sortSliceStable (attrs e ++ closingAttrs now e msg level).

(** The logger after [endSpan]. *)
Definition ended (now : Z) (e : Eotel) (msg level : string) : Eotel :=
  mkEotel (ctx e) (logger e) (tracer e) (meter e) (span e) (logCounter e)
    (durationHist e) (fields e) (finalAttrs now e msg level) (err e) (name e)
    (start e) (exporter e).

Definition spanPart (now : Z) (e : Eotel) (msg level : string) : list Event :=
  match span e with
  | Some sp =>
      SpanSetAttributes sp (finalAttrs now e msg level)
        :: match err e with
           | Some er => [SpanRecordError sp er; SpanEnd sp]
           | None => [SpanEnd sp]
           end
  | None => []
  end.

Definition metricsPart (now : Z) (e : Eotel) (level : string) : list Event :=
  match logCounter e with
  | Some c =>
      CounterAdd c 1 level
        :: match durationHist e with
           | Some h => [HistogramRecord h (now - start e) level]
           | None => []
           end
  | None => []
  end.

Definition metricsOutcome (e : Eotel) : Outcome unit :=
  match logCounter e, durationHist e with
  | Some _, Some _ => Returned tt
  | _, _ => Panicked NilPointerDereference
  end.

(** The first five fields of every entry (lines 140-145). *)
Definition correlationFields (w : World) (sp : Span) (level : string) : list Field :=
  [zap_String "trace_id" (traceIDString sp);
   zap_String "span_id" (spanIDString sp);
   zap_String "job" (JobName (globalCfg w));
   zap_String "service" (ServiceName (globalCfg w));
   zap_String "level" level].

Definition emissionFields (w : World) (e : Eotel) (level : string) : list Field :=
  correlationFields w (emissionSpan w e) level ++ fields e.

Definition lokiEntry (w : World) (e : Eotel) (level msg : string) : LokiEntry :=
  mkLokiEntry
    (list_to_map [("level", level);
                  ("job", JobName (globalCfg w));
                  ("service", ServiceName (globalCfg w));
                  ("trace_id", traceIDString (emissionSpan w e));
                  ("span_id", spanIDString (emissionSpan w e))])
    msg.

Definition sendPart (w : World) (e : Eotel) (level msg : string) : list Event :=
  if EnableLoki (globalCfg w) then [LogChanSend (lokiEntry w e level msg)] else [].

(** The [switch] of [log], on its own. *)
Definition zapDispatch (level msg : string) (z : ZapLogger) (fs : list Field) : M unit :=
  if String.eqb level "info" then zapLogger_Info z msg fs
  else if String.eqb level "error" then zapLogger_Error z msg fs
  else if String.eqb level "debug" then zapLogger_Debug z msg fs
  else if String.eqb level "warn" then zapLogger_Warn z msg fs
  else if String.eqb level "fatal" then zapLogger_Fatal z msg fs
  else mret tt.

(** The world once the span is ensured and zap has been called. *)
Definition written (w : World) (l : loc) (e : Eotel) (lv : Level) (msg : string) : World :=
  mkWorld (globalCfg w)
    (match span e with Some _ => heap w | None => <[l := started w e]> (heap w) end)
    (match span e with Some _ => nextSpan w | None => S (nextSpan w) end)
    (spanIDs w) (clock w) (gin w)
    (trace w ++ startPart w e ++ [ZapWrite lv msg (emissionFields w e (levelString lv))]).

(** The world after a whole emission below the fatal level. *)
Definition emitted (w : World) (l : loc) (e : Eotel) (lv : Level) (msg : string) : World :=
  mkWorld (globalCfg w)
    (<[l := ended (clock w) (started w e) msg (levelString lv)]> (heap w))
    (match span e with Some _ => nextSpan w | None => S (nextSpan w) end)
    (spanIDs w) (clock w) (gin w)
    (trace w ++ startPart w e
       ++ [ZapWrite lv msg (emissionFields w e (levelString lv))]
       ++ sendPart w e (levelString lv) msg
       ++ spanPart (clock w) (started w e) msg (levelString lv)
       ++ metricsPart (clock w) e (levelString lv)).

(** The logger after the call chain [withFieldCalls l kvs]. *)
Definition fieldOf (kv : string * GoValue) : Field := zap_Any (fst kv) (snd kv).
Definition attrOf (kv : string * GoValue) : KeyValue :=
  attribute_String (fst kv) (Sprintf_v (snd kv)).

Definition withFieldsAdded (e : Eotel) (kvs : list (string * GoValue)) : Eotel :=
  mkEotel (ctx e) (logger e) (tracer e) (meter e) (span e) (logCounter e)
    (durationHist e) (fields e ++ map fieldOf kvs) (attrs e ++ map attrOf kvs)
    (err e) (name e) (start e) (exporter e).

(** The logger after [WithError] with a non-nil error. *)
Definition withErrorAdded (e : Eotel) (x : GoError) : Eotel :=
  mkEotel (ctx e) (logger e) (tracer e) (meter e) (span e) (logCounter e)
    (durationHist e) (fields e ++ [zap_Error x])
    (attrs e ++ [attribute_String "error" (errMsg x)])
    (Some x) (name e) (start e) (exporter e).

(** Keys in non-decreasing order: the later key is not below the
    earlier. *)
Definition keyOrdered (a b : KeyValue) : Prop := keyLess b a = false.

Definition hasKey (k : string) (a : KeyValue) : bool := String.eqb (Key a) k.

(** Several emissions on one logger, one after the other. *)
Fixpoint emitMany (l : loc) (es : list (Level * string)) : M unit :=
  match es with
  | [] => mret tt
  | (lv, msg) :: es' => emitAt lv l msg ;; emitMany l es'
  end.


(** The struct [Child] builds for a parent [e] (lines 217-225). *)
Definition childOf (w : World) (e : Eotel) (nm : string) : Eotel :=
  let sp := mkSpan (nextSpan w) (fst (spanIDs w (nextSpan w))) (snd (spanIDs w (nextSpan w))) in
  {| ctx := CtxSpan sp :: ctx e;
     span := Some sp;
     logger := logger e;
     tracer := tracer e;
     meter := meter e;
     start := clock w;
     exporter := exporter e;
     logCounter := None;
     durationHist := None;
     fields := [];
     attrs := [];
     err := None;
     name := "" |}.

(** The struct [New] builds (lines 72-82). *)
Definition newLogger (w : World) (c : Context) (nm : string) : Eotel :=
  {| ctx := c;
     logger := zap_L;
     tracer := mkTracer (ServiceName (globalCfg w));
     meter := mkMeter (ServiceName (globalCfg w));
     span := None;
     logCounter := Some (mkCounter "log_total");
     durationHist := Some (mkHistogram "log_duration_ms");
     fields := [];
     attrs := [];
     err := None;
     name := nm;
     start := clock w;
     exporter := defaultExporter |}.

(** Everything of a logger but its field list, attribute buffer and
    recorded error. *)
Definition sameElsewhere (e e' : Eotel) : Prop :=
  ctx e' = ctx e /\ logger e' = logger e /\ tracer e' = tracer e /\ meter e' = meter e
  /\ span e' = span e /\ logCounter e' = logCounter e /\ durationHist e' = durationHist e
  /\ name e' = name e /\ start e' = start e /\ exporter e' = exporter e.

Definition belowFatal (x : Level * string) : Prop := fst x <> LvFatal.

(** The root span the middleware starts for a request (line 12). *)
Definition rootSpan (w : World) : Span :=
  mkSpan (nextSpan w) (fst (spanIDs w (nextSpan w))) (snd (spanIDs w (nextSpan w))).

(** The logger the middleware builds and stores for a request (lines
    17-21). *)
Definition requestLogger (w : World) (nm : string) : Eotel :=
  withFieldsAdded (newLogger w (CtxSpan (rootSpan w) :: reqCtx (gin w)) nm)
    [("method", VString (reqMethod (gin w)));
     ("path", VString (reqURLPath (gin w)));
     ("ip", VString (reqClientIP (gin w)));
     ("ua", VString (reqUserAgent (gin w)))].

(** The world in which the middleware calls [c.Next()]. *)
Definition serving (w : World) (nm : string) : World :=
  mkWorld (globalCfg w)
    (<[fresh (dom (heap w)) := requestLogger w nm]> (heap w))
    (S (nextSpan w)) (spanIDs w) (clock w)
    (setReqCtx (CtxLogger (EotelPtr (Some (fresh (dom (heap w)))))
                  :: CtxSpan (rootSpan w) :: reqCtx (gin w)) (gin w))
    (trace w ++ [TracerStart (mkTracer (ServiceName (globalCfg w)))
                   (reqMethod (gin w) +:+ " " +:+ reqFullPath (gin w)) (rootSpan w)]).

(** ** A world to run examples in *)

Module Demo.

Definition cfg (loki : bool) : Config :=
  mkConfig "svc" "job" "" "" "" "" true true true loki "info".

Definition request : GinContext :=
  mkGin "GET" "/orders/:id" "/orders/7" "10.0.0.1" "curl" [].

Definition ids (n : nat) : string * string :=
  ("trace-" +:+ pretty n, "span-" +:+ pretty n).

Definition world (loki : bool) : World :=
  mkWorld (cfg loki) ∅ 0 ids 0 request [].

(** A world that already holds one logger built by [New]. *)
Definition parentLoc : loc := fresh (dom (heap (world true))).
Definition parent (loki : bool) : Eotel := newLogger (world loki) [] "main".
Definition withParent (loki : bool) : World := fst (New [] "main" (world loki)).

End Demo.

(** * The rest of the package *)

(** ** config.go: the configuration read from the environment *)

(** [os.Getenv]: the value of the variable, empty when it is not set.
    The process environment is the map [env]. *)
Definition os_Getenv (env : gmap string string) (key : string) : string :=
  default "" (env !! key).

(** [getEnv] (config.go lines 37-42). *)
Definition getEnv (env : gmap string string) (key fallback : string) : string :=
  let v := os_Getenv env key in
  if negb (String.eqb v "") then v else fallback.

(** [getEnvBool] (config.go lines 44-53). *)
Definition getEnvBool (env : gmap string string) (key : string) (fallback : bool) : bool :=
  let val := os_Getenv env key in
  if String.eqb val "true" || String.eqb val "1" then true
  else if String.eqb val "false" || String.eqb val "0" then false
  else fallback.

(** [LoadConfigFromEnv] (config.go lines 21-35). *)
Definition LoadConfigFromEnv (env : gmap string string) : Config :=
  {| ServiceName := getEnv env "SERVICE_NAME" "eotel";
     JobName := getEnv env "JOB_NAME" "eotel-job";
     SentryDSN := getEnv env "SENTRY_DSN" "";
     SentryOrg := getEnv env "SENTRY_ORG" "";
     LokiURL := getEnv env "LOKI_URL" "http://loki:3100/loki/api/v1/push";
     OtelCollector := getEnv env "OTEL_COLLECTOR" "otel-collector:4317";
     EnableTracing := getEnvBool env "ENABLE_TRACING" true;
     EnableMetrics := getEnvBool env "ENABLE_METRICS" true;
     EnableSentry := getEnvBool env "ENABLE_SENTRY" true;
     EnableLoki := getEnvBool env "ENABLE_LOKI" true;
     LogLevel := getEnv env "LOG_LEVEL" "info" |}.

(** The variables [LoadConfigFromEnv] reads. *)
Definition configVariables : list string :=
  ["SERVICE_NAME"; "JOB_NAME"; "SENTRY_DSN"; "SENTRY_ORG"; "LOKI_URL";
   "OTEL_COLLECTOR"; "ENABLE_TRACING"; "ENABLE_METRICS"; "ENABLE_SENTRY";
   "ENABLE_LOKI"; "LOG_LEVEL"].

(** The four switches of a configuration, in the order of the struct. *)
Definition switches (c : Config) : list bool :=
  [EnableTracing c; EnableMetrics c; EnableSentry c; EnableLoki c].

Definition switchVariables : list string :=
  ["ENABLE_TRACING"; "ENABLE_METRICS"; "ENABLE_SENTRY"; "ENABLE_LOKI"].

(** The values that switch a subsystem off. *)
Definition switchesOff (v : string) : bool := String.eqb v "false" || String.eqb v "0".


(** ** More readings of a trace *)

(** The spans the tracer was asked to start, with their names, oldest
    first. *)
Definition startedSpans (t : list Event) : list (string * Span) :=
  omap (fun ev => match ev with TracerStart _ nm sp => Some (nm, sp) | _ => None end) t.

(** The errors recorded on spans, oldest first. *)
Definition recordedErrors (t : list Event) : list (Span * GoError) :=
  omap (fun ev => match ev with SpanRecordError sp x => Some (sp, x) | _ => None end) t.

(** The errors handed to the error-reporting collaborator. *)
Definition reportedErrors (t : list Event) : list GoError :=
  omap (fun ev => match ev with SentryCapture x _ _ => Some x | _ => None end) t.

(** The increments of the counter: instrument, amount, level tag. *)
Definition counterAdds (t : list Event) : list (Int64Counter * Z * string) :=
  omap (fun ev => match ev with CounterAdd c n lv => Some (c, n, lv) | _ => None end) t.

(** The durations recorded: instrument, elapsed time, level tag. *)
Definition histogramRecords (t : list Event) : list (Float64Histogram * Z * string) :=
  omap (fun ev => match ev with HistogramRecord h d lv => Some (h, d, lv) | _ => None end) t.

(** The entries put on the export channel. *)
Definition sentEntries (t : list Event) : list LokiEntry :=
  omap (fun ev => match ev with LogChanSend x => Some x | _ => None end) t.

(** Time passing between two calls: the clock moves on by [d]. *)
Definition elapse (d : Z) : M unit := fun w =>
  (mkWorld (globalCfg w) (heap w) (nextSpan w) (spanIDs w) (clock w + d) (gin w) (trace w),
   Returned tt).


(** ** logger.go: spans by hand *)

(** [WithTracer] (lines 191-195); [fn] is given the context that carries
    the new span. *)
Definition WithTracer (l : loc) (nm : string) (fn : Context -> M unit) : M unit :=
  e ← load l;
  '(c, sp) ← tracer_Start (tracer e) (ctx e) nm;
  defer_ (emit (SpanEnd sp)) (fn c).

(** [SetSpanAttr] (lines 203-207): the same backend call as the one
    [endSpan] makes, with one attribute. *)
Definition SetSpanAttr (l : loc) (key : string) (value : GoValue) : M unit :=
  e ← load l;
  match span e with
  | Some sp => emit (SpanSetAttributes sp [attribute_String key (Sprintf_v value)])
  | None => mret tt
  end.

(** [SetSpanError] (lines 209-213).  [err != nil] is tested first, so a
    nil error never reaches [l.span]. *)
Definition SetSpanError (l : loc) (er : option GoError) : M unit :=
  match er with
  | Some x =>
      e ← load l;
      match span e with
      | Some sp => emit (SpanRecordError sp x)
      | None => mret tt
      end
  | None => mret tt
  end.

(** ** logger.go: span events and timers *)

(** A call of [span.AddEvent(name, trace.WithAttributes(attrs...))].
    These calls are kept in a list of their own beside the world, oldest
    first. *)
Record AddEventCall := mkAddEvent {
  aeSpan : Span;
  aeName : string;
  aeAttrs : list KeyValue
}.

Record WorldX := mkWorldX {
  base : World;
  addEvents : list AddEventCall
}.

Definition MX (A : Type) : Type := WorldX -> WorldX * Outcome A.

Global Instance MX_ret : MRet MX := fun A a x => (x, Returned a).

Global Instance MX_bind : MBind MX := fun A B f m x =>
  match m x with
  | (x', Returned a) => f a x'
  | (x', Panicked v) => (x', Panicked v)
  | (x', Exited c) => (x', Exited c)
  end.

(** A computation on the world alone. *)
Definition liftX {A} (m : M A) : MX A := fun x =>
  (mkWorldX (fst (m (base x))) (addEvents x), snd (m (base x))).

Definition span_AddEvent (sp : Span) (nm : string) (kvs : list KeyValue) : MX unit :=
  fun x => (mkWorldX (base x) (addEvents x ++ [mkAddEvent sp nm kvs]), Returned tt).

(** [SpanEvent] (lines 197-201). *)
Definition SpanEvent (l : loc) (nm : string) (kvs : list KeyValue) : MX unit :=
  e ← liftX (load l);
  match span e with
  | Some sp => span_AddEvent sp nm kvs
  | None => mret tt
  end.

(** [eotelTimer] (lines 237-241).  [Start] is the only place that builds
    one, and it stores its receiver in [logger]: the field is kept as
    that address. *)
Record eotelTimer := mkTimer {
  timerName : string;
  timerLogger : loc;
  timerStart : Z
}.

(** [Start] (lines 232-235). *)
Definition Start (l : loc) (nm : string) : MX eotelTimer :=
  now ← liftX time_Now;
  mret (mkTimer nm l now).

(** [Stop] (lines 243-246); the duration is kept symbolic as in
    [endSpan], by the time elapsed. *)
Definition Stop (t : eotelTimer) : MX unit :=
  now ← liftX time_Now;
  SpanEvent (timerLogger t) (timerName t)
    [attribute_Float64Ms "custom.duration_ms" (now - timerStart t)].

(** The handler used to look at the middleware from inside: it resolves
    the logger from the request and emits once. *)
Definition emittingHandler (l : loc) (lv : Level) (msg : string) : M unit :=
  r ← FromGin l "handler";
  q ← receiver r;
  emitAt lv q msg.


(** A context entry stored under another key than the logger's. *)
Definition notLogger (en : CtxEntry) : Prop :=
  match en with
  | CtxLogger _ => False
  | _ => True
  end.

(** * Properties *)

(** ** Running the monad *)

Ltac run :=
  repeat (unfold mbind, M_bind, mret, M_ret, getWorld, emit, load, store,
            time_Now, panic, os_Exit, tracer_Start; simpl).

Lemma bind_returned {A B} (m : M A) (f : A -> M B) w w' a :
  m w = (w', Returned a) -> (m ≫= f) w = f a w'.
Proof. intros H. unfold mbind, M_bind. rewrite H. reflexivity. Qed.

Lemma bind_panicked {A B} (m : M A) (f : A -> M B) w w' v :
  m w = (w', Panicked v) -> (m ≫= f) w = (w', Panicked v).
Proof. intros H. unfold mbind, M_bind. rewrite H. reflexivity. Qed.

Lemma bind_exited {A B} (m : M A) (f : A -> M B) w w' c :
  m w = (w', Exited c) -> (m ≫= f) w = (w', Exited c).
Proof. intros H. unfold mbind, M_bind. rewrite H. reflexivity. Qed.

Lemma setHeap_same w : setHeap (heap w) w = w.
Proof. destruct w; reflexivity. Qed.

(** ** The stable sort *)

Lemma ltb_irrefl s : String.ltb s s = false.
Proof.
  unfold String.ltb. pose proof (String.compare_antisym s s) as H.
  destruct (String.compare s s); simpl in H; congruence.
Qed.

Lemma ltb_asym s t : String.ltb s t = true -> String.ltb t s = false.
Proof.
  unfold String.ltb. rewrite (String.compare_antisym s t).
  destruct (String.compare t s); simpl; congruence.
Qed.

Lemma insertStable_perm x l : Permutation (insertStable x l) (x :: l).
Proof.
  induction l as [|y l IH]; simpl.
  - reflexivity.
  - destruct (keyLess y x).
    + rewrite IH. apply perm_swap.
    + reflexivity.
Qed.

Lemma sortSliceStable_perm l : Permutation (sortSliceStable l) l.
Proof.
  induction l as [|x l IH]; simpl.
  - constructor.
  - rewrite insertStable_perm. constructor. exact IH.
Qed.

Lemma insertStable_hd x y l :
  keyLess y x = true -> HdRel keyOrdered y l -> HdRel keyOrdered y (insertStable x l).
Proof.
  intros Hyx H. destruct l as [|z l]; simpl.
  - constructor. unfold keyOrdered. apply ltb_asym. exact Hyx.
  - destruct (keyLess z x).
    + inversion H; subst. constructor. assumption.
    + constructor. unfold keyOrdered. apply ltb_asym. exact Hyx.
Qed.

Lemma insertStable_sorted x l :
  Sorted keyOrdered l -> Sorted keyOrdered (insertStable x l).
Proof.
  induction 1 as [|y l Hs IH Hhd]; simpl.
  - repeat constructor.
  - destruct (keyLess y x) eqn:E.
    + constructor; [exact IH|]. apply insertStable_hd; assumption.
    + constructor; [constructor; assumption|]. constructor. exact E.
Qed.

Lemma sortSliceStable_sorted l : Sorted keyOrdered (sortSliceStable l).
Proof.
  induction l as [|x l IH]; simpl; [constructor|]. apply insertStable_sorted, IH.
Qed.

(** Stability: the entries of one key keep their relative order. *)
Lemma insertStable_filter k x l :
  List.filter (hasKey k) (insertStable x l) = List.filter (hasKey k) (x :: l).
Proof.
  induction l as [|y l IH]; [reflexivity|].
  cbn [insertStable]. destruct (keyLess y x) eqn:E; [|reflexivity].
  cbn [List.filter] in *. rewrite IH.
  destruct (hasKey k y) eqn:Hy, (hasKey k x) eqn:Hx; try reflexivity.
  unfold hasKey in *. apply String.eqb_eq in Hy, Hx.
  unfold keyLess in E. rewrite Hy, Hx, ltb_irrefl in E. discriminate.
Qed.

Lemma sortSliceStable_filter k l :
  List.filter (hasKey k) (sortSliceStable l) = List.filter (hasKey k) l.
Proof.
  induction l as [|x l IH]; [reflexivity|].
  cbn [sortSliceStable]. rewrite insertStable_filter. cbn [List.filter].
  rewrite IH. reflexivity.
Qed.

Example sortSliceStable_keeps_ties_in_order :
  sortSliceStable [attribute_String "k" "1"; attribute_String "a" "x";
                   attribute_String "k" "2"; attribute_String "b" "y"]
  = [attribute_String "a" "x"; attribute_String "b" "y";
     attribute_String "k" "1"; attribute_String "k" "2"].
Proof. reflexivity. Qed.

(** ** One emission, step by step *)

(** The scenario of a logger with one field and one [Info]: what zap
    receives and what the span is given. *)
Example Info_with_one_field :
  let w := fst ((l ← New [] "orders";
                 l ← WithField l "order_id" (VString "123");
                 Info l "received") (Demo.world false)) in
  zapFieldLists (trace w)
    = [[zap_String "trace_id" "trace-0"; zap_String "span_id" "span-0";
        zap_String "job" "job"; zap_String "service" "svc";
        zap_String "level" "info"; zap_Any "order_id" (VString "123")]]
  /\ attrSnapshots (trace w)
     = [[attribute_Float64Ms "duration_ms" 0; attribute_String "log.level" "info";
         attribute_String "log.message" "received";
         attribute_String "order_id" "123"]]
  /\ endedSpans (trace w) = [mkSpan 0 "trace-0" "span-0"].
Proof. vm_compute. repeat split. Qed.

(** An attached error is recorded on the span at the next emission and
    reported once. *)
Example Error_after_WithError :
  let w := fst ((l ← New [] "payment";
                 l ← WithError l (Some (mkError "mock error"));
                 Error l "failed") (Demo.world false)) in
  List.filter (fun ev => match ev with
                         | SpanRecordError _ _ | SentryCapture _ _ _ => true
                         | _ => false
                         end) (trace w)
  = [SentryCapture (mkError "mock error") ∅ {["error" := VString "mock error"]};
     SpanRecordError (mkSpan 0 "trace-0" "span-0") (mkError "mock error")].
Proof. vm_compute. reflexivity. Qed.

Lemma startSpanIfNeeded_run w l e :
  heap w !! l = Some e ->
  startSpanIfNeeded l w =
    (mkWorld (globalCfg w)
       (match span e with Some _ => heap w | None => <[l := started w e]> (heap w) end)
       (match span e with Some _ => nextSpan w | None => S (nextSpan w) end)
       (spanIDs w) (clock w) (gin w) (trace w ++ startPart w e), Returned tt).
Proof.
  intros H. unfold startSpanIfNeeded, startPart, started, emissionSpan. run. rewrite H.
  destruct (span e) as [sp|] eqn:E; run.
  - rewrite app_nil_r. destruct w; reflexivity.
  - reflexivity.
Qed.

Lemma endSpan_run w l e msg level :
  heap w !! l = Some e ->
  endSpan l msg level w =
    (mkWorld (globalCfg w) (<[l := ended (clock w) e msg level]> (heap w)) (nextSpan w)
       (spanIDs w) (clock w) (gin w)
       (trace w ++ spanPart (clock w) e msg level ++ metricsPart (clock w) e level),
     metricsOutcome e).
Proof.
  intros H.
  unfold endSpan, spanPart, metricsPart, metricsOutcome, ended, finalAttrs, closingAttrs,
    Int64Counter_Add, Float64Histogram_Record.
  run. rewrite H.
  destruct (span e) as [sp|], (err e) as [er|], (logCounter e) as [c|],
    (durationHist e) as [h|]; run;
    rewrite <- ?app_assoc; simpl; rewrite ?app_nil_r; reflexivity.
Qed.

Lemma span_started w e : span (started w e) = Some (emissionSpan w e).
Proof. unfold started, emissionSpan. destruct (span e) eqn:E; simpl; auto. Qed.

Lemma fields_started w e : fields (started w e) = fields e.
Proof. unfold started. destruct (span e); reflexivity. Qed.

Lemma attrs_started w e : attrs (started w e) = attrs e.
Proof. unfold started. destruct (span e); reflexivity. Qed.

Lemma start_started w e : start (started w e) = start e.
Proof. unfold started. destruct (span e); reflexivity. Qed.

Lemma err_started w e : err (started w e) = err e.
Proof. unfold started. destruct (span e); reflexivity. Qed.

Lemma metricsPart_started now w e level :
  metricsPart now (started w e) level = metricsPart now e level.
Proof. unfold metricsPart, started. destruct (span e); reflexivity. Qed.

Lemma metricsOutcome_started w e : metricsOutcome (started w e) = metricsOutcome e.
Proof. unfold metricsOutcome, started. destruct (span e); reflexivity. Qed.

Lemma zapDispatch_run lv msg z fs w :
  zapDispatch (levelString lv) msg z fs w =
    (setTrace (trace w ++ [ZapWrite lv msg fs]) w,
     match lv with LvFatal => Exited 1 | _ => Returned tt end).
Proof. destruct lv; reflexivity. Qed.

(** [log] up to and including the call into zap: at the fatal level the
    process ends there, below it the export and [endSpan] follow. *)
Lemma log_split w l e lv msg :
  heap w !! l = Some e ->
  log l (levelString lv) msg w =
    match lv with
    | LvFatal => (written w l e lv msg, Exited 1)
    | _ =>
      ((if EnableLoki (globalCfg w)
        then Send (exporter e) (levelString lv) msg
               (traceIDString (emissionSpan w e)) (spanIDString (emissionSpan w e))
        else mret tt) ;; endSpan l msg (levelString lv)) (written w l e lv msg)
    end.
Proof.
  intros H. unfold log.
  rewrite (bind_returned _ _ _ _ _ (startSpanIfNeeded_run w l e H)).
  set (w1 := mkWorld _ _ _ _ _ _ _).
  assert (H1 : heap w1 !! l = Some (started w e)).
  { subst w1. simpl. unfold started. destruct (span e) eqn:E; [exact H|].
    apply lookup_insert_eq. }
  unfold mbind at 1, M_bind at 1, load at 1. rewrite H1. rewrite span_started.
  unfold mbind at 1, M_bind at 1, getWorld at 1.
  change (if String.eqb (levelString lv) "info" then _ else _)
    with (zapDispatch (levelString lv) msg (logger (started w e))
            (correlationFields w1 (emissionSpan w e) (levelString lv)
               ++ fields (started w e))).
  unfold mbind at 1, M_bind at 1. rewrite zapDispatch_run.
  assert (Hw : setTrace (trace w1 ++
              [ZapWrite lv msg
                 (correlationFields w1 (emissionSpan w e) (levelString lv)
                    ++ fields (started w e))]) w1
               = written w l e lv msg).
  { subst w1. unfold setTrace, written, emissionFields. simpl.
    rewrite fields_started, <- app_assoc. reflexivity. }
  rewrite Hw.
  assert (He : exporter (started w e) = exporter e)
    by (unfold started; destruct (span e); reflexivity).
  rewrite He.
  destruct lv; reflexivity.
Qed.

(** A whole emission below the fatal level. *)
Lemma log_run w l e lv msg :
  heap w !! l = Some e ->
  lv <> LvFatal ->
  log l (levelString lv) msg w = (emitted w l e lv msg, metricsOutcome e).
Proof.
  intros H Hlv.
  assert (Hgo : log l (levelString lv) msg w =
    ((if EnableLoki (globalCfg w)
        then Send (exporter e) (levelString lv) msg
               (traceIDString (emissionSpan w e)) (spanIDString (emissionSpan w e))
        else mret tt) ;; endSpan l msg (levelString lv)) (written w l e lv msg)).
  { rewrite (log_split w l e lv msg H). destruct lv; congruence. }
  rewrite Hgo. clear Hgo.
  assert (Hs : (if EnableLoki (globalCfg w)
        then Send (exporter e) (levelString lv) msg
               (traceIDString (emissionSpan w e)) (spanIDString (emissionSpan w e))
        else mret tt) (written w l e lv msg)
      = (setTrace (trace (written w l e lv msg) ++ sendPart w e (levelString lv) msg)
           (written w l e lv msg), Returned tt)).
  { unfold sendPart, Send, lokiEntry.
    destruct (EnableLoki (globalCfg w)); run; [reflexivity|].
    rewrite app_nil_r. reflexivity. }
  rewrite (bind_returned _ _ _ _ _ Hs).
  assert (H3 : heap (setTrace (trace (written w l e lv msg)
                       ++ sendPart w e (levelString lv) msg) (written w l e lv msg)) !! l
               = Some (started w e)).
  { simpl. unfold started. destruct (span e) eqn:E; [exact H|]. apply lookup_insert_eq. }
  rewrite (endSpan_run _ l _ msg (levelString lv) H3). simpl.
  rewrite metricsPart_started, metricsOutcome_started.
  unfold emitted. f_equal. f_equal.
  - destruct (span e); [reflexivity|]. apply insert_insert_eq.
  - rewrite <- !app_assoc. reflexivity.
Qed.

(** The emission methods in terms of [log]. *)
Lemma emitAt_nonfatal lv l msg :
  lv <> LvFatal -> emitAt lv l msg = log l (levelString lv) msg.
Proof. destruct lv; try reflexivity. congruence. Qed.

Lemma Fatal_run w l e msg :
  heap w !! l = Some e ->
  Fatal l msg w = (written w l e LvFatal msg, Exited 1).
Proof.
  intros H. unfold Fatal. apply bind_exited.
  exact (log_split w l e LvFatal msg H).
Qed.

(** ** Construction and attachment *)

Lemma New_run w c nm :
  New c nm w =
    (setHeap (<[fresh (dom (heap w)) := newLogger w c nm]> (heap w)) w,
     Returned (fresh (dom (heap w)))).
Proof. reflexivity. Qed.

Lemma fresh_unallocated (h : gmap loc Eotel) : h !! fresh (dom h) = None.
Proof. apply not_elem_of_dom. apply is_fresh. Qed.

Lemma Child_run w l e nm :
  heap w !! l = Some e ->
  Child l nm w =
    (mkWorld (globalCfg w)
       (<[fresh (dom (heap w)) := childOf w e nm]> (heap w))
       (S (nextSpan w)) (spanIDs w) (clock w) (gin w)
       (trace w ++ [TracerStart (tracer e) nm (emissionSpan w (childOf w e nm))]),
     Returned (fresh (dom (heap w)))).
Proof.
  intros H. unfold Child, alloc. run. rewrite H. reflexivity.
Qed.

Lemma WithField_run w l e k v :
  heap w !! l = Some e ->
  WithField l k v w =
    (setHeap (<[l := withFieldsAdded e [(k, v)]]> (heap w)) w, Returned l).
Proof.
  intros H. unfold WithField. run. rewrite H. reflexivity.
Qed.

Lemma withFieldsAdded_nil e : withFieldsAdded e [] = e.
Proof.
  unfold withFieldsAdded. simpl. rewrite !app_nil_r. destruct e; reflexivity.
Qed.

Lemma withFieldsAdded_cons e kv kvs :
  withFieldsAdded (withFieldsAdded e [kv]) kvs = withFieldsAdded e (kv :: kvs).
Proof.
  unfold withFieldsAdded. simpl. rewrite <- !app_assoc. reflexivity.
Qed.

Lemma withFieldCalls_run kvs : forall w l e,
  heap w !! l = Some e ->
  withFieldCalls l kvs w =
    (setHeap (<[l := withFieldsAdded e kvs]> (heap w)) w, Returned l).
Proof.
  induction kvs as [|[k v] kvs IH]; intros w l e H.
  - simpl. rewrite withFieldsAdded_nil, (insert_id _ _ _ H), setHeap_same. reflexivity.
  - cbn [withFieldCalls].
    rewrite (bind_returned _ _ _ _ _ (WithField_run w l e k v H)).
    rewrite (IH _ l (withFieldsAdded e [(k, v)])) by apply lookup_insert_eq.
    simpl. rewrite insert_insert_eq, withFieldsAdded_cons. reflexivity.
Qed.

Lemma WithError_run w l e x :
  heap w !! l = Some e ->
  WithError l (Some x) w =
    (mkWorld (globalCfg w) (<[l := withErrorAdded e x]> (heap w)) (nextSpan w)
       (spanIDs w) (clock w) (gin w)
       (trace w ++ [SentryCapture x ∅ {["error" := VString (errMsg x)]}]),
     Returned l).
Proof.
  intros H. unfold WithError, CaptureError. run. rewrite H. reflexivity.
Qed.

(** ** Projections of a trace *)

Lemma count_app p t1 t2 : count p (t1 ++ t2) = (count p t1 + count p t2)%nat.
Proof. unfold count. rewrite List.filter_app, length_app. reflexivity. Qed.

Lemma attrSnapshots_app t1 t2 :
  attrSnapshots (t1 ++ t2) = attrSnapshots t1 ++ attrSnapshots t2.
Proof. apply omap_app. Qed.

Lemma zapFieldLists_app t1 t2 :
  zapFieldLists (t1 ++ t2) = zapFieldLists t1 ++ zapFieldLists t2.
Proof. apply omap_app. Qed.

Lemma endedSpans_app t1 t2 : endedSpans (t1 ++ t2) = endedSpans t1 ++ endedSpans t2.
Proof. apply omap_app. Qed.

Lemma effects_app t1 t2 : effects (t1 ++ t2) = effects t1 ++ effects t2.
Proof. apply omap_app. Qed.

(** ** Parts of an emission seen through the projections *)

Lemma count_startPart p w e :
  (forall t nm sp, p (TracerStart t nm sp) = false) -> count p (startPart w e) = 0%nat.
Proof. intros Hp. unfold startPart. destruct (span e); [reflexivity|]. unfold count. simpl. rewrite Hp. reflexivity. Qed.

Lemma count_sendPart p w e level msg :
  (forall x, p (LogChanSend x) = false) -> count p (sendPart w e level msg) = 0%nat.
Proof.
  intros Hp. unfold sendPart. destruct (EnableLoki _); [|reflexivity].
  unfold count. simpl. rewrite Hp. reflexivity.
Qed.

Lemma count_spanPart p now e msg level :
  (forall sp kvs, p (SpanSetAttributes sp kvs) = false) ->
  (forall sp er, p (SpanRecordError sp er) = false) ->
  (forall sp, p (SpanEnd sp) = false) ->
  count p (spanPart now e msg level) = 0%nat.
Proof.
  intros H1 H2 H3. unfold spanPart, count.
  destruct (span e), (err e); simpl; rewrite ?H1, ?H2, ?H3; simpl; rewrite ?H3; reflexivity.
Qed.

Lemma count_metricsPart p now e level :
  (forall c n s, p (CounterAdd c n s) = false) ->
  (forall h n s, p (HistogramRecord h n s) = false) ->
  count p (metricsPart now e level) = 0%nat.
Proof.
  intros H1 H2. unfold metricsPart, count.
  destruct (logCounter e), (durationHist e); simpl; rewrite ?H1; simpl; rewrite ?H2; reflexivity.
Qed.

Lemma zapFieldLists_startPart w e : zapFieldLists (startPart w e) = [].
Proof. unfold startPart. destruct (span e); reflexivity. Qed.

Lemma zapFieldLists_sendPart w e level msg : zapFieldLists (sendPart w e level msg) = [].
Proof. unfold sendPart. destruct (EnableLoki _); reflexivity. Qed.

Lemma zapFieldLists_spanPart now e msg level : zapFieldLists (spanPart now e msg level) = [].
Proof. unfold spanPart. destruct (span e), (err e); reflexivity. Qed.

Lemma zapFieldLists_metricsPart now e level : zapFieldLists (metricsPart now e level) = [].
Proof. unfold metricsPart. destruct (logCounter e), (durationHist e); reflexivity. Qed.

Lemma log_unallocated w l level msg :
  heap w !! l = None -> log l level msg w = (w, Panicked NilPointerDereference).
Proof. intros H. unfold log, startSpanIfNeeded. run. rewrite H. reflexivity. Qed.

Lemma emitAt_unallocated w l lv msg :
  heap w !! l = None -> emitAt lv l msg w = (w, Panicked NilPointerDereference).
Proof.
  intros H. destruct lv; try exact (log_unallocated w l _ msg H).
  unfold emitAt, Fatal. apply bind_panicked. exact (log_unallocated w l _ msg H).
Qed.

(** The trace an emission leaves, at every severity. *)
Lemma emitAt_trace w l e lv msg :
  heap w !! l = Some e ->
  trace (fst (emitAt lv l msg w)) =
    trace w ++ startPart w e
      ++ [ZapWrite lv msg (emissionFields w e (levelString lv))]
      ++ match lv with
         | LvFatal => []
         | _ => sendPart w e (levelString lv) msg
                  ++ spanPart (clock w) (started w e) msg (levelString lv)
                  ++ metricsPart (clock w) e (levelString lv)
         end.
Proof.
  intros H. destruct lv;
    try (rewrite emitAt_nonfatal, (log_run w l e _ msg H) by discriminate; reflexivity).
  unfold emitAt. rewrite (Fatal_run w l e msg H). reflexivity.
Qed.

(** ** The claims *)

(** C1 (code defect).  The claim: no emission raises a fault back to its
    caller, and the nil counter and histogram of a logger built by [Child]
    are swallowed.  The code: [Child] leaves both instruments nil and
    [endSpan] calls [Add] through the nil interface, so every emission below
    the fatal level on a child logger panics with a nil dereference, after
    the log write and before any count is recorded. *)
Theorem C1_emission_on_child_panics w l e nm lv msg :
  heap w !! l = Some e ->
  lv <> LvFatal ->
  snd ((c ← Child l nm; emitAt lv c msg) w) = Panicked NilPointerDereference
  /\ count isCounterAdd (trace (fst ((c ← Child l nm; emitAt lv c msg) w)))
     = count isCounterAdd (trace w).
Proof.
  intros H Hlv.
  rewrite (bind_returned _ _ _ _ _ (Child_run w l e nm H)).
  set (w1 := mkWorld _ _ _ _ _ _ _).
  assert (H1 : heap w1 !! fresh (dom (heap w)) = Some (childOf w e nm))
    by apply lookup_insert_eq.
  rewrite emitAt_nonfatal by exact Hlv.
  rewrite (log_run w1 _ _ lv msg H1 Hlv). split; [reflexivity|].
  cbn [fst emitted trace w1]. rewrite !count_app.
  rewrite count_startPart, count_sendPart, count_spanPart by reflexivity.
  unfold metricsPart, count. simpl. lia.
Qed.

Lemma C1_emission_on_child_panics_witness :
  snd ((c ← Child Demo.parentLoc "child"; emitAt LvInfo c "hello") (Demo.withParent true))
    = Panicked NilPointerDereference
  /\ count isCounterAdd
       (trace (fst ((c ← Child Demo.parentLoc "child"; emitAt LvInfo c "hello")
                      (Demo.withParent true))))
     = count isCounterAdd (trace (Demo.withParent true)).
Proof.
  apply (C1_emission_on_child_panics (Demo.withParent true) Demo.parentLoc
           (Demo.parent true) "child" LvInfo "hello").
  - reflexivity.
  - discriminate.
Defined.

(** C5 (code defect).  The claim: [Fatal] completes the log write, the
    span end and the metrics recording, and only then ends the process.
    The code: [log] hands the fatal entry to zap's [Fatal], which ends the
    process itself, so [Fatal] stops right after the log write: no [End]
    reaches the span, no count is added and no duration is recorded. *)
Theorem C5_Fatal_stops_at_the_log_write w l e msg :
  heap w !! l = Some e ->
  snd (Fatal l msg w) = Exited 1
  /\ trace (fst (Fatal l msg w))
     = trace w ++ startPart w e ++ [ZapWrite LvFatal msg (emissionFields w e "fatal")]
  /\ endedSpans (trace (fst (Fatal l msg w))) = endedSpans (trace w)
  /\ count isCounterAdd (trace (fst (Fatal l msg w))) = count isCounterAdd (trace w)
  /\ count isHistogramRecord (trace (fst (Fatal l msg w)))
     = count isHistogramRecord (trace w).
Proof.
  intros H. rewrite (Fatal_run w l e msg H). cbn [fst snd written trace levelString].
  repeat split.
  - rewrite !endedSpans_app.
    assert (Hs : endedSpans (startPart w e) = [])
      by (unfold startPart; destruct (span e); reflexivity).
    rewrite Hs. simpl. rewrite app_nil_r. reflexivity.
  - rewrite !count_app, count_startPart by reflexivity. unfold count. simpl. lia.
  - rewrite !count_app, count_startPart by reflexivity. unfold count. simpl. lia.
Qed.

Lemma C5_Fatal_stops_at_the_log_write_witness :
  snd (Fatal Demo.parentLoc "shutdown" (Demo.withParent true)) = Exited 1
  /\ trace (fst (Fatal Demo.parentLoc "shutdown" (Demo.withParent true)))
     = trace (Demo.withParent true)
         ++ startPart (Demo.withParent true) (Demo.parent true)
         ++ [ZapWrite LvFatal "shutdown"
               (emissionFields (Demo.withParent true) (Demo.parent true) "fatal")]
  /\ endedSpans (trace (fst (Fatal Demo.parentLoc "shutdown" (Demo.withParent true))))
     = endedSpans (trace (Demo.withParent true))
  /\ count isCounterAdd (trace (fst (Fatal Demo.parentLoc "shutdown" (Demo.withParent true))))
     = count isCounterAdd (trace (Demo.withParent true))
  /\ count isHistogramRecord
       (trace (fst (Fatal Demo.parentLoc "shutdown" (Demo.withParent true))))
     = count isHistogramRecord (trace (Demo.withParent true)).
Proof.
  apply (C5_Fatal_stops_at_the_log_write (Demo.withParent true) Demo.parentLoc
           (Demo.parent true) "shutdown").
  reflexivity.
Defined.

(** C7.  At every severity the field list handed to zap is: trace ID,
    span ID, job name, service name, severity, then the fields the caller
    attached, in the order of the calls that attached them. *)
Theorem C7_zap_fields_in_insertion_order w l e kvs lv msg :
  heap w !! l = Some e ->
  zapFieldLists (trace (fst ((l' ← withFieldCalls l kvs; emitAt lv l' msg) w))) =
    zapFieldLists (trace w) ++
    [[zap_String "trace_id" (traceIDString (emissionSpan w e));
      zap_String "span_id" (spanIDString (emissionSpan w e));
      zap_String "job" (JobName (globalCfg w));
      zap_String "service" (ServiceName (globalCfg w));
      zap_String "level" (levelString lv)]
       ++ fields e ++ map fieldOf kvs].
Proof.
  intros H.
  rewrite (bind_returned _ _ _ _ _ (withFieldCalls_run kvs w l e H)).
  set (w1 := setHeap _ w).
  assert (H1 : heap w1 !! l = Some (withFieldsAdded e kvs)) by apply lookup_insert_eq.
  rewrite (emitAt_trace w1 l _ lv msg H1).
  rewrite !zapFieldLists_app, zapFieldLists_startPart.
  assert (Hrest : zapFieldLists
            match lv with
            | LvFatal => []
            | _ => sendPart w1 (withFieldsAdded e kvs) (levelString lv) msg
                     ++ spanPart (clock w1) (started w1 (withFieldsAdded e kvs)) msg
                          (levelString lv)
                     ++ metricsPart (clock w1) (withFieldsAdded e kvs) (levelString lv)
            end = []).
  { destruct lv; try reflexivity;
      rewrite !zapFieldLists_app, zapFieldLists_sendPart, zapFieldLists_spanPart,
        zapFieldLists_metricsPart; reflexivity. }
  rewrite Hrest. reflexivity.
Qed.

Lemma C7_zap_fields_in_insertion_order_witness :
  zapFieldLists
    (trace (fst ((l' ← withFieldCalls Demo.parentLoc
                          [("order_id", VString "123"); ("attempt", VInt 2)];
                  emitAt LvInfo l' "received") (Demo.withParent true)))) =
    [[zap_String "trace_id" "trace-0";
      zap_String "span_id" "span-0";
      zap_String "job" "job";
      zap_String "service" "svc";
      zap_String "level" "info";
      zap_Any "order_id" (VString "123");
      zap_Any "attempt" (VInt 2)]].
Proof.
  apply (C7_zap_fields_in_insertion_order (Demo.withParent true) Demo.parentLoc
           (Demo.parent true) [("order_id", VString "123"); ("attempt", VInt 2)]
           LvInfo "received").
  reflexivity.
Defined.

(** C8.  With [EnableLoki] off, no emission at any severity on any logger
    sends on the export channel. *)
Theorem C8_no_send_when_export_disabled w l lv msg :
  EnableLoki (globalCfg w) = false ->
  count isLogChanSend (trace (fst (emitAt lv l msg w))) = count isLogChanSend (trace w)
  /\ globalCfg (fst (emitAt lv l msg w)) = globalCfg w.
Proof.
  intros Hoff. destruct (heap w !! l) as [e|] eqn:H.
  - split.
    + rewrite (emitAt_trace w l e lv msg H). rewrite !count_app.
      rewrite count_startPart by reflexivity.
      assert (Hs : sendPart w e (levelString lv) msg = [])
        by (unfold sendPart; rewrite Hoff; reflexivity).
      destruct lv; rewrite ?Hs, ?count_app, ?count_spanPart, ?count_metricsPart by reflexivity;
        unfold count; simpl; lia.
    + destruct lv;
        try (rewrite emitAt_nonfatal, (log_run w l e _ msg H) by discriminate; reflexivity).
      unfold emitAt. rewrite (Fatal_run w l e msg H). reflexivity.
  - rewrite (emitAt_unallocated w l lv msg H). split; reflexivity.
Qed.

Lemma C8_no_send_when_export_disabled_witness :
  count isLogChanSend
    (trace (fst (emitAt LvError Demo.parentLoc "failed" (Demo.withParent false))))
    = count isLogChanSend (trace (Demo.withParent false))
  /\ globalCfg (fst (emitAt LvError Demo.parentLoc "failed" (Demo.withParent false)))
     = globalCfg (Demo.withParent false).
Proof.
  apply (C8_no_send_when_export_disabled (Demo.withParent false) Demo.parentLoc
           LvError "failed").
  reflexivity.
Defined.

(** ** The attribute snapshot *)

Lemma attrSnapshots_startPart w e : attrSnapshots (startPart w e) = [].
Proof. unfold startPart. destruct (span e); reflexivity. Qed.

Lemma attrSnapshots_sendPart w e level msg : attrSnapshots (sendPart w e level msg) = [].
Proof. unfold sendPart. destruct (EnableLoki _); reflexivity. Qed.

Lemma attrSnapshots_metricsPart now e level : attrSnapshots (metricsPart now e level) = [].
Proof. unfold metricsPart. destruct (logCounter e), (durationHist e); reflexivity. Qed.

Lemma attrSnapshots_spanPart_started now w e msg level :
  attrSnapshots (spanPart now (started w e) msg level)
    = [sortSliceStable (attrs e ++ closingAttrs now e msg level)].
Proof.
  unfold spanPart. rewrite span_started, err_started.
  unfold finalAttrs, closingAttrs. rewrite attrs_started, start_started.
  destruct (err e); reflexivity.
Qed.

(** C2 fails as stated: a key set twice is in the snapshot twice. *)
Lemma C2_reused_key_is_kept_twice :
  exists snap,
    attrSnapshots
      (trace (fst ((l ← New [] "main";
                    l ← WithField l "k" (VString "1");
                    l ← WithField l "k" (VString "2");
                    Info l "hello") (Demo.world false)))) = [snap]
    /\ List.filter (hasKey "k") snap
       = [attribute_String "k" "1"; attribute_String "k" "2"]
    /\ List.filter (hasKey "k") snap <> [attribute_String "k" "2"].
Proof.
  eexists. split; [vm_compute; reflexivity|]. split; [reflexivity|discriminate].
Qed.

(** C2, amended.  After any chain of [WithField] calls, an emission below
    the fatal level hands the span one snapshot; it is sorted by key and
    holds one entry per call, so a key set several times is there several
    times, its entries in call order (the value set last is the last of
    them), followed in the buffer by the three closing attributes. *)
Theorem C2_snapshot_holds_one_entry_per_call w l e kvs lv msg :
  heap w !! l = Some e ->
  lv <> LvFatal ->
  exists snap,
    attrSnapshots (trace (fst ((l' ← withFieldCalls l kvs; emitAt lv l' msg) w)))
      = attrSnapshots (trace w) ++ [snap]
    /\ Sorted keyOrdered snap
    /\ Permutation snap
         (attrs e ++ map attrOf kvs ++ closingAttrs (clock w) e msg (levelString lv))
    /\ forall k,
         List.filter (hasKey k) snap
         = List.filter (hasKey k) (attrs e)
             ++ List.filter (hasKey k) (map attrOf kvs)
             ++ List.filter (hasKey k) (closingAttrs (clock w) e msg (levelString lv)).
Proof.
  intros H Hlv.
  rewrite (bind_returned _ _ _ _ _ (withFieldCalls_run kvs w l e H)).
  set (w1 := setHeap _ w).
  assert (H1 : heap w1 !! l = Some (withFieldsAdded e kvs)) by apply lookup_insert_eq.
  rewrite (emitAt_trace w1 l _ lv msg H1).
  exists (sortSliceStable
            ((attrs e ++ map attrOf kvs) ++ closingAttrs (clock w) e msg (levelString lv))).
  split; [|split; [|split]].
  - assert (Hrest : attrSnapshots
              match lv with
              | LvFatal => []
              | _ => sendPart w1 (withFieldsAdded e kvs) (levelString lv) msg
                       ++ spanPart (clock w1) (started w1 (withFieldsAdded e kvs)) msg
                            (levelString lv)
                       ++ metricsPart (clock w1) (withFieldsAdded e kvs) (levelString lv)
              end
            = [sortSliceStable
                 ((attrs e ++ map attrOf kvs)
                    ++ closingAttrs (clock w) e msg (levelString lv))]).
    { destruct lv; try congruence;
        rewrite !attrSnapshots_app, attrSnapshots_sendPart,
          attrSnapshots_spanPart_started, attrSnapshots_metricsPart; reflexivity. }
    rewrite !attrSnapshots_app, attrSnapshots_startPart, Hrest. reflexivity.
  - apply sortSliceStable_sorted.
  - rewrite sortSliceStable_perm, <- app_assoc. reflexivity.
  - intros k. rewrite sortSliceStable_filter, !List.filter_app, <- app_assoc. reflexivity.
Qed.

Lemma C2_snapshot_holds_one_entry_per_call_witness :
  exists snap,
    attrSnapshots
      (trace (fst ((l' ← withFieldCalls Demo.parentLoc
                            [("k", VString "1"); ("a", VInt 7); ("k", VString "2")];
                    emitAt LvInfo l' "hello") (Demo.withParent false))))
      = attrSnapshots (trace (Demo.withParent false)) ++ [snap]
    /\ Sorted keyOrdered snap
    /\ Permutation snap
         (attrs (Demo.parent false)
            ++ map attrOf [("k", VString "1"); ("a", VInt 7); ("k", VString "2")]
            ++ closingAttrs (clock (Demo.withParent false)) (Demo.parent false) "hello"
                 (levelString LvInfo))
    /\ forall k,
         List.filter (hasKey k) snap
         = List.filter (hasKey k) (attrs (Demo.parent false))
             ++ List.filter (hasKey k)
                  (map attrOf [("k", VString "1"); ("a", VInt 7); ("k", VString "2")])
             ++ List.filter (hasKey k)
                  (closingAttrs (clock (Demo.withParent false)) (Demo.parent false) "hello"
                     (levelString LvInfo)).
Proof.
  apply (C2_snapshot_holds_one_entry_per_call (Demo.withParent false) Demo.parentLoc
           (Demo.parent false) [("k", VString "1"); ("a", VInt 7); ("k", VString "2")]
           LvInfo "hello").
  - reflexivity.
  - discriminate.
Defined.

(** ** The order of the effects *)

Lemma effects_startPart w e : effects (startPart w e) = [].
Proof. unfold startPart. destruct (span e); reflexivity. Qed.

Lemma effects_spanPart now e msg level : effects (spanPart now e msg level) = [].
Proof. unfold spanPart. destruct (span e), (err e); reflexivity. Qed.

(** C3 fails as stated: with export on, the entry is queued before the
    count is incremented. *)
Lemma C3_enqueue_comes_before_the_count :
  effects (trace (fst ((l ← New [] "main"; Info l "hello") (Demo.world true))))
    = [LogWrite; Enqueue; CountIncrement]
  /\ effects (trace (fst ((l ← New [] "main"; Info l "hello") (Demo.world true))))
     <> [LogWrite; CountIncrement; Enqueue].
Proof. split; [vm_compute; reflexivity | vm_compute; discriminate]. Qed.

(** C3, amended.  On a logger whose counter and histogram are set, an
    emission below the fatal level returns after exactly one log write,
    then (with export on) exactly one send on the export channel, then
    exactly one count increment, in this order. *)
Theorem C3_write_then_enqueue_then_count w l e c h lv msg :
  heap w !! l = Some e ->
  logCounter e = Some c ->
  durationHist e = Some h ->
  lv <> LvFatal ->
  snd (emitAt lv l msg w) = Returned tt
  /\ effects (trace (fst (emitAt lv l msg w)))
     = effects (trace w)
         ++ [LogWrite] ++ (if EnableLoki (globalCfg w) then [Enqueue] else [])
         ++ [CountIncrement].
Proof.
  intros H Hc Hh Hlv. rewrite emitAt_nonfatal by exact Hlv.
  rewrite (log_run w l e lv msg H Hlv). split.
  - unfold metricsOutcome. rewrite Hc, Hh. reflexivity.
  - cbn [fst emitted trace].
    rewrite !effects_app, effects_startPart, effects_spanPart.
    unfold sendPart, metricsPart. rewrite Hc, Hh.
    destruct (EnableLoki (globalCfg w)); reflexivity.
Qed.

Lemma C3_write_then_enqueue_then_count_witness :
  snd (emitAt LvWarn Demo.parentLoc "slow" (Demo.withParent true)) = Returned tt
  /\ effects (trace (fst (emitAt LvWarn Demo.parentLoc "slow" (Demo.withParent true))))
     = effects (trace (Demo.withParent true))
         ++ [LogWrite]
         ++ (if EnableLoki (globalCfg (Demo.withParent true)) then [Enqueue] else [])
         ++ [CountIncrement].
Proof.
  apply (C3_write_then_enqueue_then_count (Demo.withParent true) Demo.parentLoc
           (Demo.parent true) (mkCounter "log_total") (mkHistogram "log_duration_ms")
           LvWarn "slow").
  - reflexivity.
  - reflexivity.
  - reflexivity.
  - discriminate.
Defined.

(** ** Several emissions on one logger *)

Lemma emissionSpan_held w e sp : span e = Some sp -> emissionSpan w e = sp.
Proof. intros H. unfold emissionSpan. rewrite H. reflexivity. Qed.

Lemma endedSpans_startPart w e : endedSpans (startPart w e) = [].
Proof. unfold startPart. destruct (span e); reflexivity. Qed.

Lemma endedSpans_sendPart w e level msg : endedSpans (sendPart w e level msg) = [].
Proof. unfold sendPart. destruct (EnableLoki _); reflexivity. Qed.

Lemma endedSpans_metricsPart now e level : endedSpans (metricsPart now e level) = [].
Proof. unfold metricsPart. destruct (logCounter e), (durationHist e); reflexivity. Qed.

Lemma endedSpans_spanPart_started now w e msg level :
  endedSpans (spanPart now (started w e) msg level) = [emissionSpan w e].
Proof.
  unfold spanPart. rewrite span_started. destruct (err (started w e)); reflexivity.
Qed.

(** What a run of emissions below the fatal level leaves behind, on a
    logger whose instruments are set: every emission returns, ends the
    same span once more, and writes the same caller fields. *)
Lemma emitMany_run l es : forall w e c h,
  heap w !! l = Some e ->
  logCounter e = Some c ->
  durationHist e = Some h ->
  Forall belowFatal es ->
  snd (emitMany l es w) = Returned tt
  /\ endedSpans (trace (fst (emitMany l es w)))
     = endedSpans (trace w) ++ repeat (emissionSpan w e) (length es)
  /\ zapFieldLists (trace (fst (emitMany l es w)))
     = zapFieldLists (trace w)
         ++ map (fun x => correlationFields w (emissionSpan w e) (levelString (fst x))
                            ++ fields e) es.
Proof.
  induction es as [|[lv msg] es IH]; intros w e c h H Hc Hh Hes.
  - simpl. rewrite !app_nil_r. auto.
  - inversion Hes as [|x xs Hlv Hes']; subst. unfold belowFatal in Hlv. simpl in Hlv.
    cbn [emitMany]. rewrite emitAt_nonfatal by exact Hlv.
    assert (Hout : metricsOutcome e = Returned tt)
      by (unfold metricsOutcome; rewrite Hc, Hh; reflexivity).
    pose proof (log_run w l e lv msg H Hlv) as Hrun. rewrite Hout in Hrun.
    rewrite (bind_returned _ _ _ _ _ Hrun).
    set (e1 := ended (clock w) (started w e) msg (levelString lv)).
    assert (H1 : heap (emitted w l e lv msg) !! l = Some e1) by apply lookup_insert_eq.
    assert (Hc1 : logCounter e1 = Some c)
      by (subst e1; unfold ended, started; simpl; destruct (span e); exact Hc).
    assert (Hh1 : durationHist e1 = Some h)
      by (subst e1; unfold ended, started; simpl; destruct (span e); exact Hh).
    assert (Hsp : emissionSpan (emitted w l e lv msg) e1 = emissionSpan w e)
      by (apply emissionSpan_held; subst e1; simpl; apply span_started).
    assert (Hf : fields e1 = fields e) by (subst e1; simpl; apply fields_started).
    destruct (IH _ e1 c h H1 Hc1 Hh1 Hes') as (Ho & He & Hz).
    rewrite Ho, He, Hz, Hsp, Hf. split; [reflexivity|].
    cbn [emitted trace length repeat map fst].
    rewrite !endedSpans_app, !zapFieldLists_app.
    rewrite endedSpans_startPart, endedSpans_sendPart, endedSpans_spanPart_started,
      endedSpans_metricsPart.
    rewrite zapFieldLists_startPart, zapFieldLists_sendPart, zapFieldLists_spanPart,
      zapFieldLists_metricsPart.
    simpl. rewrite <- !app_assoc. split; reflexivity.
Qed.

(** C4 fails as stated: the second emission on a logger calls [End] on
    the same span again. *)
Lemma C4_second_emission_ends_the_span_again :
  endedSpans
    (trace (fst ((l ← New [] "main"; Info l "first";; Info l "second")
                   (Demo.world false))))
    = [mkSpan 0 "trace-0" "span-0"; mkSpan 0 "trace-0" "span-0"].
Proof. vm_compute. reflexivity. Qed.

(** C4, amended.  The logger keeps no record that its span has ended: on
    a logger whose instruments are set, each emission below the fatal
    level calls [End] once on the logger's span, so [n] emissions deliver
    [n] termination calls for that one span to the tracing backend. *)
Theorem C4_each_emission_ends_the_span_once_more w l e c h es :
  heap w !! l = Some e ->
  logCounter e = Some c ->
  durationHist e = Some h ->
  Forall belowFatal es ->
  snd (emitMany l es w) = Returned tt
  /\ endedSpans (trace (fst (emitMany l es w)))
     = endedSpans (trace w) ++ repeat (emissionSpan w e) (length es).
Proof.
  intros H Hc Hh Hes.
  destruct (emitMany_run l es w e c h H Hc Hh Hes) as (Ho & He & _). auto.
Qed.

Lemma C4_each_emission_ends_the_span_once_more_witness :
  snd (emitMany Demo.parentLoc [(LvInfo, "first"); (LvError, "second")]
         (Demo.withParent false)) = Returned tt
  /\ endedSpans
       (trace (fst (emitMany Demo.parentLoc [(LvInfo, "first"); (LvError, "second")]
                      (Demo.withParent false))))
     = endedSpans (trace (Demo.withParent false))
         ++ repeat (emissionSpan (Demo.withParent false) (Demo.parent false))
              (length [(LvInfo, "first"); (LvError, "second")]).
Proof.
  apply (C4_each_emission_ends_the_span_once_more (Demo.withParent false) Demo.parentLoc
           (Demo.parent false) (mkCounter "log_total") (mkHistogram "log_duration_ms")
           [(LvInfo, "first"); (LvError, "second")]).
  - reflexivity.
  - reflexivity.
  - reflexivity.
  - repeat constructor; discriminate.
Defined.

(** ** Attachment *)

Lemma sameElsewhere_withFieldsAdded e kvs : sameElsewhere e (withFieldsAdded e kvs).
Proof. unfold sameElsewhere. simpl. repeat split. Qed.

Lemma sameElsewhere_withErrorAdded e x : sameElsewhere e (withErrorAdded e x).
Proof. unfold sameElsewhere. simpl. repeat split. Qed.

Lemma WithFields_run w l e m :
  heap w !! l = Some e ->
  WithFields l m w = (setHeap (<[l := withFieldsAdded e m]> (heap w)) w, Returned l).
Proof.
  intros H. unfold WithFields.
  rewrite (bind_returned _ _ _ _ _ (withFieldCalls_run m w l e H)). reflexivity.
Qed.

(** C10.  [WithField], [WithFields] and [WithError] return their
    receiver and change it in place, at its own address only:
    [WithField] appends one field and one stringified attribute,
    [WithFields] does so for each pair of the map, [WithError] with a
    non-nil error appends one field and one attribute and records the
    error (and reports it), [WithError] with nil changes nothing; context,
    span, name, creation time and the backend references stay as they
    were.  What was attached stays attached: every later emission on that
    logger writes it. *)
Theorem C10_attachment_changes_the_receiver_in_place w l e k v m x es :
  heap w !! l = Some e ->
  (exists e',
      WithField l k v w = (setHeap (<[l := e']> (heap w)) w, Returned l)
      /\ fields e' = fields e ++ [zap_Any k v]
      /\ attrs e' = attrs e ++ [attribute_String k (Sprintf_v v)]
      /\ err e' = err e
      /\ sameElsewhere e e')
  /\ (exists e',
      WithFields l m w = (setHeap (<[l := e']> (heap w)) w, Returned l)
      /\ fields e' = fields e ++ map fieldOf m
      /\ attrs e' = attrs e ++ map attrOf m
      /\ err e' = err e
      /\ sameElsewhere e e')
  /\ (exists e',
      WithError l (Some x) w
        = (mkWorld (globalCfg w) (<[l := e']> (heap w)) (nextSpan w) (spanIDs w)
             (clock w) (gin w)
             (trace w ++ [SentryCapture x ∅ {["error" := VString (errMsg x)]}]),
           Returned l)
      /\ fields e' = fields e ++ [zap_Error x]
      /\ attrs e' = attrs e ++ [attribute_String "error" (errMsg x)]
      /\ err e' = Some x
      /\ sameElsewhere e e')
  /\ WithError l None w = (w, Returned l)
  /\ (forall c h,
        logCounter e = Some c ->
        durationHist e = Some h ->
        Forall belowFatal es ->
        zapFieldLists (trace (fst ((l' ← WithField l k v; emitMany l' es) w)))
        = zapFieldLists (trace w)
            ++ map (fun y => correlationFields w (emissionSpan w e) (levelString (fst y))
                               ++ fields e ++ [zap_Any k v]) es).
Proof.
  intros H. split; [|split; [|split; [|split]]].
  - exists (withFieldsAdded e [(k, v)]).
    split; [exact (WithField_run w l e k v H)|].
    repeat split.
  - exists (withFieldsAdded e m).
    split; [exact (WithFields_run w l e m H)|].
    split; [reflexivity|]. split; [reflexivity|]. split; [reflexivity|].
    apply sameElsewhere_withFieldsAdded.
  - exists (withErrorAdded e x).
    split; [exact (WithError_run w l e x H)|].
    split; [reflexivity|]. split; [reflexivity|]. split; [reflexivity|].
    apply sameElsewhere_withErrorAdded.
  - reflexivity.
  - intros c h Hc Hh Hes.
    rewrite (bind_returned _ _ _ _ _ (WithField_run w l e k v H)).
    set (w1 := setHeap _ w).
    assert (H1 : heap w1 !! l = Some (withFieldsAdded e [(k, v)]))
      by apply lookup_insert_eq.
    destruct (emitMany_run l es w1 _ c h H1 Hc Hh Hes) as (_ & _ & Hz).
    rewrite Hz. reflexivity.
Qed.

Lemma C10_attachment_changes_the_receiver_in_place_witness :
  (exists e',
      WithField Demo.parentLoc "order_id" (VString "123") (Demo.withParent true)
        = (setHeap (<[Demo.parentLoc := e']> (heap (Demo.withParent true)))
             (Demo.withParent true), Returned Demo.parentLoc)
      /\ fields e' = fields (Demo.parent true) ++ [zap_Any "order_id" (VString "123")]
      /\ attrs e' = attrs (Demo.parent true)
                      ++ [attribute_String "order_id" (Sprintf_v (VString "123"))]
      /\ err e' = err (Demo.parent true)
      /\ sameElsewhere (Demo.parent true) e')
  /\ (exists e',
      WithFields Demo.parentLoc [("a", VInt 1); ("b", VBool true)] (Demo.withParent true)
        = (setHeap (<[Demo.parentLoc := e']> (heap (Demo.withParent true)))
             (Demo.withParent true), Returned Demo.parentLoc)
      /\ fields e' = fields (Demo.parent true)
                       ++ map fieldOf [("a", VInt 1); ("b", VBool true)]
      /\ attrs e' = attrs (Demo.parent true)
                      ++ map attrOf [("a", VInt 1); ("b", VBool true)]
      /\ err e' = err (Demo.parent true)
      /\ sameElsewhere (Demo.parent true) e')
  /\ (exists e',
      WithError Demo.parentLoc (Some (mkError "mock error")) (Demo.withParent true)
        = (mkWorld (globalCfg (Demo.withParent true))
             (<[Demo.parentLoc := e']> (heap (Demo.withParent true)))
             (nextSpan (Demo.withParent true)) (spanIDs (Demo.withParent true))
             (clock (Demo.withParent true)) (gin (Demo.withParent true))
             (trace (Demo.withParent true)
                ++ [SentryCapture (mkError "mock error") ∅
                      {["error" := VString (errMsg (mkError "mock error"))]}]),
           Returned Demo.parentLoc)
      /\ fields e' = fields (Demo.parent true) ++ [zap_Error (mkError "mock error")]
      /\ attrs e' = attrs (Demo.parent true)
                      ++ [attribute_String "error" (errMsg (mkError "mock error"))]
      /\ err e' = Some (mkError "mock error")
      /\ sameElsewhere (Demo.parent true) e')
  /\ WithError Demo.parentLoc None (Demo.withParent true)
     = (Demo.withParent true, Returned Demo.parentLoc)
  /\ (forall c h,
        logCounter (Demo.parent true) = Some c ->
        durationHist (Demo.parent true) = Some h ->
        Forall belowFatal [(LvInfo, "one"); (LvWarn, "two")] ->
        zapFieldLists
          (trace (fst ((l' ← WithField Demo.parentLoc "order_id" (VString "123");
                        emitMany l' [(LvInfo, "one"); (LvWarn, "two")])
                         (Demo.withParent true))))
        = zapFieldLists (trace (Demo.withParent true))
            ++ map (fun y => correlationFields (Demo.withParent true)
                               (emissionSpan (Demo.withParent true) (Demo.parent true))
                               (levelString (fst y))
                               ++ fields (Demo.parent true)
                               ++ [zap_Any "order_id" (VString "123")])
                 [(LvInfo, "one"); (LvWarn, "two")]).
Proof.
  apply (C10_attachment_changes_the_receiver_in_place (Demo.withParent true)
           Demo.parentLoc (Demo.parent true) "order_id" (VString "123")
           [("a", VInt 1); ("b", VBool true)] (mkError "mock error")
           [(LvInfo, "one"); (LvWarn, "two")]).
  reflexivity.
Defined.

(** ** The request middleware and the panic guard *)

(** The middleware up to [c.Next()]: what is left are the two deferred
    calls around the handler. *)
Lemma Middleware_run w nm next :
  Middleware nm next w =
    defer_ (emit (SpanEnd (rootSpan w)))
      (defer_ (discard (RecoverPanic (fresh (dom (heap w))))) next) (serving w nm).
Proof.
  unfold Middleware. run. unfold defer_ at 1 3.
  unfold New, alloc, initMetrics. run.
  unfold WithField. run. rewrite lookup_insert_eq. run.
  rewrite lookup_insert_eq. run. rewrite lookup_insert_eq. run.
  rewrite lookup_insert_eq. run.
  unfold setRequestContext, Inject. rewrite !insert_insert_eq. reflexivity.
Qed.

(** With no panic in flight the guard closure does nothing. *)
Lemma RecoverPanic_idle l w : RecoverPanic l None w = (w, Returned tt).
Proof. reflexivity. Qed.

(** The guard closure itself, once it runs with a panic in flight and the
    request context holds a logger with its instruments: the error built
    from the recovered value is attached and reported, written once at
    the error level, the request is aborted with status 500, and the
    closure returns. *)
Lemma RecoverPanic_closure_converts w l p e c h v :
  ctxLoggerValue (reqCtx (gin w)) = EotelPtr (Some p) ->
  heap w !! p = Some e ->
  logCounter e = Some c ->
  durationHist e = Some h ->
  snd (RecoverPanic l (Some v) w) = Returned tt
  /\ zapFieldLists (trace (fst (RecoverPanic l (Some v) w)))
     = zapFieldLists (trace w)
         ++ [correlationFields w (emissionSpan w e) "error"
               ++ fields e ++ [zap_Error (Errorf_panic v)]]
  /\ last (trace (fst (RecoverPanic l (Some v) w))) = Some (GinAbortWithStatus 500).
Proof.
  intros Hc H Hcn Hh.
  pose (e1 := withErrorAdded e (Errorf_panic v)).
  pose (w1 := mkWorld (globalCfg w) (<[p := e1]> (heap w)) (nextSpan w) (spanIDs w)
                (clock w) (gin w)
                (trace w ++ [SentryCapture (Errorf_panic v) ∅
                               {["error" := VString (errMsg (Errorf_panic v))]}])).
  pose (w2 := emitted w1 p e1 LvError "unhandled panic").
  assert (Hrun : RecoverPanic l (Some v) w
                 = (setTrace (trace w2 ++ [GinAbortWithStatus 500]) w2, Returned tt)).
  { unfold RecoverPanic, FromGin, FromContext.
    unfold mbind at 1, M_bind at 1, mbind at 1, M_bind at 1, getWorld at 1.
    rewrite Hc. unfold mret at 1, M_ret at 1, receiver.
    unfold mbind at 1, M_bind at 1, mret at 1, M_ret at 1.
    rewrite (bind_returned _ _ _ _ _ (WithError_run w p e _ H)).
    fold e1 w1.
    assert (H1 : heap w1 !! p = Some e1) by apply lookup_insert_eq.
    assert (Hlv : LvError <> LvFatal) by discriminate.
    pose proof (log_run w1 p _ LvError "unhandled panic" H1 Hlv) as Hlog.
    assert (Hout : metricsOutcome e1 = Returned tt)
      by (unfold metricsOutcome; simpl; rewrite Hcn, Hh; reflexivity).
    rewrite Hout in Hlog. unfold Error.
    change "error" with (levelString LvError).
    rewrite (bind_returned _ _ _ _ _ Hlog). reflexivity. }
  rewrite Hrun. cbn [fst snd setTrace trace]. split; [reflexivity|]. split.
  - subst w2. cbn [emitted trace w1].
    rewrite !zapFieldLists_app, zapFieldLists_startPart, zapFieldLists_sendPart,
      zapFieldLists_spanPart, zapFieldLists_metricsPart.
    simpl. rewrite !app_nil_r. reflexivity.
  - apply last_snoc.
Qed.

(** The same closure deferred as a call of its own ([defer g()] with
    [g] the closure): the panic of the body stops there, and with no panic
    nothing happens. *)
Lemma deferred_closure_recovers w l next w' p e c h v :
  next w = (w', Panicked v) ->
  ctxLoggerValue (reqCtx (gin w')) = EotelPtr (Some p) ->
  heap w' !! p = Some e ->
  logCounter e = Some c ->
  durationHist e = Some h ->
  snd (deferRecovering (RecoverPanic l) next w) = Returned tt
  /\ last (trace (fst (deferRecovering (RecoverPanic l) next w)))
     = Some (GinAbortWithStatus 500).
Proof.
  intros Hn Hc H Hcn Hh. unfold deferRecovering. rewrite Hn.
  destruct (RecoverPanic_closure_converts w' l p e c h v Hc H Hcn Hh) as (Ho & _ & Hl).
  auto.
Qed.

Lemma deferred_closure_idle w l next w' :
  next w = (w', Returned tt) ->
  deferRecovering (RecoverPanic l) next w = (w', Returned tt).
Proof. intros Hn. unfold deferRecovering. rewrite Hn. reflexivity. Qed.

(** C6 (code defect).  The claim: a panic under the guard the middleware
    installs becomes one error-level emission and an abort with status
    500, and goes no further.  The code: line 28 defers [RecoverPanic]
    itself, not the closure it returns, so the closure never runs: a
    panic of the handler leaves the middleware as the same panic, and
    the middleware adds nothing to what the handler did but the end of
    the root span. *)
Theorem C6_Middleware_passes_the_panic_on w nm next w' v :
  next (serving w nm) = (w', Panicked v) ->
  Middleware nm next w = (setTrace (trace w' ++ [SpanEnd (rootSpan w)]) w', Panicked v)
  /\ count isZapWrite (trace (fst (Middleware nm next w))) = count isZapWrite (trace w')
  /\ count isGinAbort (trace (fst (Middleware nm next w))) = count isGinAbort (trace w').
Proof.
  intros Hn.
  assert (Hrun : Middleware nm next w
                 = (setTrace (trace w' ++ [SpanEnd (rootSpan w)]) w', Panicked v)).
  { rewrite Middleware_run. unfold defer_. rewrite Hn. reflexivity. }
  rewrite Hrun. split; [reflexivity|].
  cbn [fst setTrace trace]. rewrite !count_app. unfold count. simpl. lia.
Qed.

Lemma C6_Middleware_passes_the_panic_on_witness :
  Middleware "gin-server" (panic (PanicAny (VString "boom"))) (Demo.world true)
    = (setTrace (trace (serving (Demo.world true) "gin-server")
                   ++ [SpanEnd (rootSpan (Demo.world true))])
         (serving (Demo.world true) "gin-server"),
       Panicked (PanicAny (VString "boom")))
  /\ count isZapWrite
       (trace (fst (Middleware "gin-server" (panic (PanicAny (VString "boom")))
                      (Demo.world true))))
     = count isZapWrite (trace (serving (Demo.world true) "gin-server"))
  /\ count isGinAbort
       (trace (fst (Middleware "gin-server" (panic (PanicAny (VString "boom")))
                      (Demo.world true))))
     = count isGinAbort (trace (serving (Demo.world true) "gin-server")).
Proof.
  apply (C6_Middleware_passes_the_panic_on (Demo.world true) "gin-server"
           (panic (PanicAny (VString "boom"))) (serving (Demo.world true) "gin-server")
           (PanicAny (VString "boom"))).
  reflexivity.
Defined.

(** ** Resolving a logger from a context *)

(** C9 fails as stated: a logger of another implementation stored by
    [Inject] is not the one [FromContext] returns; a fresh [*Eotel] is. *)
Lemma C9_foreign_logger_is_not_returned :
  ctxLoggerValue (Inject Demo.parentLoc [] (OtherLogger 7)) = OtherLogger 7
  /\ exists p,
       snd (FromContext Demo.parentLoc (Inject Demo.parentLoc [] (OtherLogger 7))
              "handler" (Demo.withParent false)) = Returned (Some p)
       /\ heap (Demo.withParent false) !! p = None
       /\ EotelPtr (Some p) <> OtherLogger 7.
Proof.
  split; [reflexivity|]. eexists. split; [vm_compute; reflexivity|].
  split; [vm_compute; reflexivity|discriminate].
Qed.

(** C9, amended.  What [Inject] stores under the private key is what a
    lookup finds.  When that is a non-nil [*Eotel], [FromContext] returns
    it and touches nothing.  When nothing is stored there, or a logger
    that is not an [*Eotel], [FromContext] returns a fresh logger as [New]
    builds it, at an address not in use before, and an emission below the
    fatal level on it returns. *)
Theorem C9_FromContext_resolves w l c nm :
  (forall lg, ctxLoggerValue (Inject l c lg) = lg)
  /\ (forall p,
        ctxLoggerValue c = EotelPtr (Some p) ->
        FromContext l c nm w = (w, Returned (Some p)))
  /\ ((forall p, ctxLoggerValue c <> EotelPtr p) ->
      exists p,
        FromContext l c nm w
          = (setHeap (<[p := newLogger w c nm]> (heap w)) w, Returned (Some p))
        /\ heap w !! p = None
        /\ forall lv msg,
             lv <> LvFatal ->
             snd ((r ← FromContext l c nm; q ← receiver r; emitAt lv q msg) w)
               = Returned tt).
Proof.
  split; [reflexivity|]. split.
  - intros p Hp. unfold FromContext. rewrite Hp. reflexivity.
  - intros Hno. exists (fresh (dom (heap w))).
    assert (Hnew : FromContext l c nm w
                   = (setHeap (<[fresh (dom (heap w)) := newLogger w c nm]> (heap w)) w,
                      Returned (Some (fresh (dom (heap w)))))).
    { unfold FromContext. destruct (ctxLoggerValue c) as [|p|i] eqn:E;
        [reflexivity | destruct (Hno p); reflexivity | reflexivity]. }
    split; [exact Hnew|]. split; [apply fresh_unallocated|].
    intros lv msg Hlv.
    rewrite (bind_returned _ _ _ _ _ Hnew).
    unfold receiver. unfold mbind at 1, M_bind at 1, mret at 1, M_ret at 1.
    rewrite emitAt_nonfatal by exact Hlv.
    rewrite (log_run _ _ (newLogger w c nm) lv msg) by (apply lookup_insert_eq || exact Hlv).
    reflexivity.
Qed.

Lemma C9_FromContext_resolves_witness :
  FromContext Demo.parentLoc
    (Inject Demo.parentLoc [] (EotelPtr (Some Demo.parentLoc))) "handler"
    (Demo.withParent false)
  = (Demo.withParent false, Returned (Some Demo.parentLoc))
  /\ exists p,
       FromContext Demo.parentLoc [] "handler" (Demo.withParent false)
       = (setHeap (<[p := newLogger (Demo.withParent false) [] "handler"]>
                     (heap (Demo.withParent false))) (Demo.withParent false),
          Returned (Some p))
       /\ heap (Demo.withParent false) !! p = None.
Proof.
  split.
  - apply (proj1 (proj2 (C9_FromContext_resolves (Demo.withParent false) Demo.parentLoc
                           (Inject Demo.parentLoc [] (EotelPtr (Some Demo.parentLoc)))
                           "handler"))).
    reflexivity.
  - destruct (proj2 (proj2 (C9_FromContext_resolves (Demo.withParent false)
                              Demo.parentLoc [] "handler")))
      as (p & Hp & Hfree & _).
    + intros p. simpl. discriminate.
    + exists p. split; assumption.
Defined.

(** * Properties of the rest of the package *)

(** ** config.go *)

Lemma getEnv_nonempty env key fallback :
  fallback <> "" -> getEnv env key fallback <> "".
Proof.
  intros Hf. unfold getEnv.
  destruct (String.eqb (os_Getenv env key) "") eqn:E; simpl; [exact Hf|].
  apply String.eqb_neq. exact E.
Qed.

(** X1.  Whatever the environment holds, the loaded configuration has a
    service name, a job name, a Loki URL, a collector address and a log
    level that are not empty: a variable that is unset or set to the
    empty string gives way to the default. *)
Theorem X1_loaded_names_are_never_empty env :
  ServiceName (LoadConfigFromEnv env) <> ""
  /\ JobName (LoadConfigFromEnv env) <> ""
  /\ LokiURL (LoadConfigFromEnv env) <> ""
  /\ OtelCollector (LoadConfigFromEnv env) <> ""
  /\ LogLevel (LoadConfigFromEnv env) <> "".
Proof.
  unfold LoadConfigFromEnv. cbn [ServiceName JobName LokiURL OtelCollector LogLevel].
  repeat split; apply getEnv_nonempty; discriminate.
Qed.

Lemma getEnvBool_default_true env key :
  getEnvBool env key true = negb (switchesOff (os_Getenv env key)).
Proof.
  unfold getEnvBool, switchesOff.
  destruct (String.eqb (os_Getenv env key) "true") eqn:Et.
  - apply String.eqb_eq in Et. rewrite Et. reflexivity.
  - destruct (String.eqb (os_Getenv env key) "1") eqn:E1.
    + apply String.eqb_eq in E1. rewrite E1. reflexivity.
    + simpl. destruct (_ || _); reflexivity.
Qed.

(** X2.  Each of the four subsystems is on unless its variable is exactly
    "false" or "0": any other value, such as "FALSE", "no" or "off",
    and an unset variable leave it on. *)
Theorem X2_switch_is_off_only_for_false_or_0 env :
  switches (LoadConfigFromEnv env)
  = map (fun key => negb (switchesOff (os_Getenv env key))) switchVariables.
Proof.
  unfold switches, LoadConfigFromEnv, switchVariables.
  cbn [EnableTracing EnableMetrics EnableSentry EnableLoki map].
  rewrite !getEnvBool_default_true. reflexivity.
Qed.

Lemma os_Getenv_agree (env1 env2 : gmap string string) key :
  env1 !! key = env2 !! key -> os_Getenv env1 key = os_Getenv env2 key.
Proof. intros H. unfold os_Getenv. rewrite H. reflexivity. Qed.

(** X3.  The loaded configuration depends on the eleven variables it
    names and on nothing else: two environments that agree on them load
    the same configuration. *)
Theorem X3_configuration_reads_only_its_variables (env1 env2 : gmap string string) :
  Forall (fun key => env1 !! key = env2 !! key) configVariables ->
  LoadConfigFromEnv env1 = LoadConfigFromEnv env2.
Proof.
  intros H. unfold configVariables in H.
  repeat match goal with
         | H : Forall _ (_ :: _) |- _ =>
             let h := fresh "Hk" in
             apply Forall_cons_1 in H as [h H]; apply os_Getenv_agree in h
         end.
  unfold LoadConfigFromEnv, getEnv, getEnvBool.
  repeat match goal with Hk : os_Getenv env1 _ = _ |- _ => rewrite Hk; clear Hk end.
  reflexivity.
Qed.

Lemma X3_configuration_reads_only_its_variables_witness :
  LoadConfigFromEnv {["ENABLE_LOKI" := "0"; "HOME" := "/root"]}
  = LoadConfigFromEnv {["ENABLE_LOKI" := "0"; "PATH" := "/bin"]}.
Proof.
  apply (X3_configuration_reads_only_its_variables
           {["ENABLE_LOKI" := "0"; "HOME" := "/root"]}
           {["ENABLE_LOKI" := "0"; "PATH" := "/bin"]}).
  unfold configVariables. repeat constructor.
Defined.

(** ** Emissions and the other loggers *)

Lemma emitAt_world w l e lv msg :
  heap w !! l = Some e ->
  fst (emitAt lv l msg w)
  = match lv with LvFatal => written w l e lv msg | _ => emitted w l e lv msg end.
Proof.
  intros H. destruct lv;
    try (rewrite emitAt_nonfatal, (log_run w l e _ msg H) by discriminate; reflexivity).
  unfold emitAt. rewrite (Fatal_run w l e msg H). reflexivity.
Qed.

Lemma emitAt_frame w l l' lv msg :
  l' <> l ->
  heap (fst (emitAt lv l msg w)) !! l' = heap w !! l'
  /\ dom (heap (fst (emitAt lv l msg w))) = dom (heap w).
Proof.
  intros Hne. destruct (heap w !! l) as [e|] eqn:H.
  - rewrite (emitAt_world w l e lv msg H).
    assert (Hdom : forall x, dom (<[l := x]> (heap w)) = dom (heap w))
      by (intros x; apply dom_insert_lookup_L; eauto).
    destruct lv; cbn [emitted written heap];
      try (split; [apply lookup_insert_ne; congruence | apply Hdom]).
    destruct (span e); [split; reflexivity|].
    split; [apply lookup_insert_ne; congruence | apply Hdom].
  - rewrite (emitAt_unallocated w l lv msg H). split; reflexivity.
Qed.

(** X4.  An emission, at any severity and however it ends, allocates no
    logger and changes no logger but its own: every other address holds
    what it held before. *)
Theorem X4_emission_touches_no_other_logger w l l' lv msg :
  l' <> l ->
  heap (fst (emitAt lv l msg w)) !! l' = heap w !! l'
  /\ dom (heap (fst (emitAt lv l msg w))) = dom (heap w).
Proof. intros Hne. exact (emitAt_frame w l l' lv msg Hne). Qed.

Lemma X4_emission_touches_no_other_logger_witness :
  heap (fst (emitAt LvInfo Demo.parentLoc "hello"
               (fst (New [] "other" (Demo.withParent true))))) !! 2%positive
  = heap (fst (New [] "other" (Demo.withParent true))) !! 2%positive
  /\ dom (heap (fst (emitAt LvInfo Demo.parentLoc "hello"
                       (fst (New [] "other" (Demo.withParent true))))))
     = dom (heap (fst (New [] "other" (Demo.withParent true)))).
Proof.
  apply (X4_emission_touches_no_other_logger
           (fst (New [] "other" (Demo.withParent true))) Demo.parentLoc 2%positive
           LvInfo "hello").
  discriminate.
Defined.

(** ** Runs of emissions on one logger *)

Lemma length_sortSliceStable l : length (sortSliceStable l) = length l.
Proof. apply Permutation_length, sortSliceStable_perm. Qed.

Lemma length_attrs_ended now w e msg level :
  length (attrs (ended now (started w e) msg level)) = (length (attrs e) + 3)%nat.
Proof.
  unfold ended, finalAttrs. cbn [attrs].
  rewrite length_sortSliceStable, length_app, attrs_started. reflexivity.
Qed.

Lemma emitMany_readings l es : forall w e c h,
  heap w !! l = Some e ->
  logCounter e = Some c ->
  durationHist e = Some h ->
  Forall belowFatal es ->
  startedSpans (trace (fst (emitMany l es w)))
  = startedSpans (trace w)
      ++ match es, span e with
         | _ :: _, None => [(name e, emissionSpan w e)]
         | _, _ => []
         end
  /\ recordedErrors (trace (fst (emitMany l es w)))
     = recordedErrors (trace w)
         ++ match err e with
            | Some x => repeat (emissionSpan w e, x) (length es)
            | None => []
            end
  /\ counterAdds (trace (fst (emitMany l es w)))
     = counterAdds (trace w) ++ map (fun y => (c, 1, levelString (fst y))) es
  /\ histogramRecords (trace (fst (emitMany l es w)))
     = histogramRecords (trace w)
         ++ map (fun y => (h, clock w - start e, levelString (fst y))) es
  /\ map length (attrSnapshots (trace (fst (emitMany l es w))))
     = map length (attrSnapshots (trace w))
         ++ map (fun i => (length (attrs e) + 3 * S i)%nat) (seq 0 (length es))
  /\ reportedErrors (trace (fst (emitMany l es w))) = reportedErrors (trace w).
Proof.
  induction es as [|[lv msg] es IH]; intros w e c h H Hc Hh Hes.
  - simpl. rewrite !app_nil_r. destruct (err e); rewrite ?app_nil_r; repeat split; reflexivity.
  - inversion Hes as [|x xs Hlv Hes']; subst. unfold belowFatal in Hlv. simpl in Hlv.
    cbn [emitMany]. rewrite emitAt_nonfatal by exact Hlv.
    assert (Hout : metricsOutcome e = Returned tt)
      by (unfold metricsOutcome; rewrite Hc, Hh; reflexivity).
    pose proof (log_run w l e lv msg H Hlv) as Hrun. rewrite Hout in Hrun.
    rewrite (bind_returned _ _ _ _ _ Hrun).
    set (e1 := ended (clock w) (started w e) msg (levelString lv)).
    assert (H1 : heap (emitted w l e lv msg) !! l = Some e1) by apply lookup_insert_eq.
    assert (Hc1 : logCounter e1 = Some c)
      by (subst e1; unfold ended, started; simpl; destruct (span e); exact Hc).
    assert (Hh1 : durationHist e1 = Some h)
      by (subst e1; unfold ended, started; simpl; destruct (span e); exact Hh).
    assert (Hs1 : span e1 = Some (emissionSpan w e)) by (subst e1; simpl; apply span_started).
    assert (Hsp : emissionSpan (emitted w l e lv msg) e1 = emissionSpan w e)
      by (apply emissionSpan_held; exact Hs1).
    assert (Her : err e1 = err e) by (subst e1; simpl; apply err_started).
    assert (Hst : start e1 = start e) by (subst e1; simpl; apply start_started).
    assert (Hlen : length (attrs e1) = (length (attrs e) + 3)%nat)
      by (subst e1; apply length_attrs_ended).
    destruct (IH _ e1 c h H1 Hc1 Hh1 Hes') as (I1 & I2 & I3 & I4 & I5 & I6).
    rewrite I1, I2, I3, I4, I5, I6, Hs1, Hsp, Her, Hst, Hlen. clear I1 I2 I3 I4 I5 I6 IH.
    cbn [emitted trace clock length map fst].
    unfold startedSpans, recordedErrors, counterAdds, histogramRecords, attrSnapshots,
      reportedErrors.
    rewrite !omap_app.
    unfold startPart, sendPart, spanPart, metricsPart. rewrite span_started, err_started, Hc, Hh.
    assert (Hseq : map (fun i => (length (attrs e) + 3 + 3 * S i)%nat) (seq 0 (length es))
                   = map (fun i => (length (attrs e) + 3 * S i)%nat) (seq 1 (length es))).
    { rewrite <- seq_shift, map_map. apply map_ext. intros i. lia. }
    rewrite Hseq.
    assert (Hfin : length (finalAttrs (clock w) (started w e) msg (levelString lv))
                   = (length (attrs e) + 3 * 1)%nat).
    { unfold finalAttrs. rewrite length_sortSliceStable, length_app, attrs_started.
      simpl. lia. }
    destruct (span e) eqn:Es, (err e) eqn:Ee, (EnableLoki (globalCfg w)), es;
      cbn [omap list_omap app map length repeat seq];
      rewrite ?map_app, ?app_nil_r, <- ?app_assoc; cbn [app map length repeat seq];
      rewrite ?Hfin, ?app_nil_r; repeat split; reflexivity.
Qed.

(** X5.  A logger built by [New] asks the tracer for nothing until it is
    first used: over any run of emissions below the fatal level exactly
    one span is started, at the first of them, under the logger's name;
    with no emission no span is started. *)
Theorem X5_one_span_started_at_the_first_emission w c nm es :
  Forall belowFatal es ->
  startedSpans (trace (fst ((l ← New c nm; emitMany l es) w)))
  = startedSpans (trace w)
      ++ match es with
         | [] => []
         | _ :: _ => [(nm, rootSpan w)]
         end.
Proof.
  intros Hes. rewrite (bind_returned _ _ _ _ _ (New_run w c nm)).
  set (w1 := setHeap _ w).
  assert (H1 : heap w1 !! fresh (dom (heap w)) = Some (newLogger w c nm))
    by apply lookup_insert_eq.
  destruct (emitMany_readings _ es w1 _ (mkCounter "log_total")
              (mkHistogram "log_duration_ms") H1 eq_refl eq_refl Hes) as (I1 & _).
  rewrite I1. destruct es; reflexivity.
Qed.

Lemma X5_one_span_started_at_the_first_emission_witness :
  startedSpans
    (trace (fst ((l ← New [] "orders";
                  emitMany l [(LvInfo, "one"); (LvWarn, "two"); (LvError, "three")])
                   (Demo.world true))))
  = startedSpans (trace (Demo.world true)) ++ [("orders", rootSpan (Demo.world true))].
Proof.
  apply (X5_one_span_started_at_the_first_emission (Demo.world true) [] "orders"
           [(LvInfo, "one"); (LvWarn, "two"); (LvError, "three")]).
  repeat constructor; discriminate.
Defined.

(** X6.  An error attached with [WithError] is reported to the
    error-reporting collaborator once, when it is attached, and stays
    attached: every later emission on the logger records it on the span
    again. *)
Theorem X6_attached_error_is_recorded_at_every_emission w l e c h x es :
  heap w !! l = Some e ->
  logCounter e = Some c ->
  durationHist e = Some h ->
  Forall belowFatal es ->
  recordedErrors (trace (fst ((l' ← WithError l (Some x); emitMany l' es) w)))
  = recordedErrors (trace w) ++ repeat (emissionSpan w e, x) (length es)
  /\ reportedErrors (trace (fst ((l' ← WithError l (Some x); emitMany l' es) w)))
     = reportedErrors (trace w) ++ [x].
Proof.
  intros H Hc Hh Hes.
  rewrite (bind_returned _ _ _ _ _ (WithError_run w l e x H)).
  set (w1 := mkWorld _ _ _ _ _ _ _).
  assert (H1 : heap w1 !! l = Some (withErrorAdded e x)) by apply lookup_insert_eq.
  destruct (emitMany_readings l es w1 _ c h H1 Hc Hh Hes) as (_ & I2 & _ & _ & _ & I6).
  rewrite I2, I6. cbn [w1 trace withErrorAdded err].
  unfold recordedErrors, reportedErrors. rewrite !omap_app. simpl.
  rewrite app_nil_r. split; reflexivity.
Qed.

Lemma X6_attached_error_is_recorded_at_every_emission_witness :
  recordedErrors
    (trace (fst ((l' ← WithError Demo.parentLoc (Some (mkError "timeout"));
                  emitMany l' [(LvError, "failed"); (LvInfo, "retrying")])
                   (Demo.withParent true))))
  = recordedErrors (trace (Demo.withParent true))
      ++ repeat (emissionSpan (Demo.withParent true) (Demo.parent true), mkError "timeout")
           (length [(LvError, "failed"); (LvInfo, "retrying")])
  /\ reportedErrors
       (trace (fst ((l' ← WithError Demo.parentLoc (Some (mkError "timeout"));
                     emitMany l' [(LvError, "failed"); (LvInfo, "retrying")])
                      (Demo.withParent true))))
     = reportedErrors (trace (Demo.withParent true)) ++ [mkError "timeout"].
Proof.
  apply (X6_attached_error_is_recorded_at_every_emission (Demo.withParent true)
           Demo.parentLoc (Demo.parent true) (mkCounter "log_total")
           (mkHistogram "log_duration_ms") (mkError "timeout")
           [(LvError, "failed"); (LvInfo, "retrying")]).
  - reflexivity.
  - reflexivity.
  - reflexivity.
  - repeat constructor; discriminate.
Defined.

(** X7.  On a logger whose instruments are set, a run of emissions below
    the fatal level adds to the counter once per emission, always by 1 and
    tagged with that emission's level, and records one duration per
    emission under the same tag: the time since the logger was created. *)
Theorem X7_one_count_and_one_duration_per_emission w l e c h es :
  heap w !! l = Some e ->
  logCounter e = Some c ->
  durationHist e = Some h ->
  Forall belowFatal es ->
  counterAdds (trace (fst (emitMany l es w)))
  = counterAdds (trace w) ++ map (fun y => (c, 1, levelString (fst y))) es
  /\ histogramRecords (trace (fst (emitMany l es w)))
     = histogramRecords (trace w)
         ++ map (fun y => (h, clock w - start e, levelString (fst y))) es.
Proof.
  intros H Hc Hh Hes.
  destruct (emitMany_readings l es w e c h H Hc Hh Hes) as (_ & _ & I3 & I4 & _). auto.
Qed.

Lemma X7_one_count_and_one_duration_per_emission_witness :
  counterAdds
    (trace (fst (emitMany Demo.parentLoc [(LvInfo, "a"); (LvInfo, "b"); (LvError, "c")]
                   (Demo.withParent true))))
  = counterAdds (trace (Demo.withParent true))
      ++ map (fun y => (mkCounter "log_total", 1, levelString (fst y)))
           [(LvInfo, "a"); (LvInfo, "b"); (LvError, "c")]
  /\ histogramRecords
       (trace (fst (emitMany Demo.parentLoc [(LvInfo, "a"); (LvInfo, "b"); (LvError, "c")]
                      (Demo.withParent true))))
     = histogramRecords (trace (Demo.withParent true))
         ++ map (fun y => (mkHistogram "log_duration_ms",
                           clock (Demo.withParent true) - start (Demo.parent true),
                           levelString (fst y)))
              [(LvInfo, "a"); (LvInfo, "b"); (LvError, "c")].
Proof.
  apply (X7_one_count_and_one_duration_per_emission (Demo.withParent true) Demo.parentLoc
           (Demo.parent true) (mkCounter "log_total") (mkHistogram "log_duration_ms")
           [(LvInfo, "a"); (LvInfo, "b"); (LvError, "c")]).
  - reflexivity.
  - reflexivity.
  - reflexivity.
  - repeat constructor; discriminate.
Defined.

(** X8.  The closing attributes of an emission stay in the logger's
    buffer: the snapshot handed to the span at the n-th emission of a run
    holds what the buffer held before the run and three attributes for
    each emission made so far, so it grows by three from one emission to
    the next. *)
Theorem X8_snapshot_grows_by_three_per_emission w l e c h es :
  heap w !! l = Some e ->
  logCounter e = Some c ->
  durationHist e = Some h ->
  Forall belowFatal es ->
  map length (attrSnapshots (trace (fst (emitMany l es w))))
  = map length (attrSnapshots (trace w))
      ++ map (fun i => (length (attrs e) + 3 * S i)%nat) (seq 0 (length es)).
Proof.
  intros H Hc Hh Hes.
  destruct (emitMany_readings l es w e c h H Hc Hh Hes) as (_ & _ & _ & _ & I5 & _).
  exact I5.
Qed.

Lemma X8_snapshot_grows_by_three_per_emission_witness :
  map length
    (attrSnapshots
       (trace (fst (emitMany Demo.parentLoc [(LvInfo, "a"); (LvInfo, "b")]
                      (Demo.withParent true)))))
  = map length (attrSnapshots (trace (Demo.withParent true)))
      ++ map (fun i => (length (attrs (Demo.parent true)) + 3 * S i)%nat)
           (seq 0 (length [(LvInfo, "a"); (LvInfo, "b")])).
Proof.
  apply (X8_snapshot_grows_by_three_per_emission (Demo.withParent true) Demo.parentLoc
           (Demo.parent true) (mkCounter "log_total") (mkHistogram "log_duration_ms")
           [(LvInfo, "a"); (LvInfo, "b")]).
  - reflexivity.
  - reflexivity.
  - reflexivity.
  - repeat constructor; discriminate.
Defined.

(** ** Durations *)

(** X9.  The duration an emission records is the time since the logger
    was created, not since its previous emission: when [d1] passes
    between [New] and a first emission and [d2] between the first and a
    second, the two durations recorded are [d1] and [d1 + d2]. *)
Theorem X9_duration_counts_from_creation w c nm d1 d2 lv1 msg1 lv2 msg2 :
  lv1 <> LvFatal ->
  lv2 <> LvFatal ->
  histogramRecords
    (trace (fst ((l ← New c nm;
                  elapse d1;; emitAt lv1 l msg1;; elapse d2;; emitAt lv2 l msg2) w)))
  = histogramRecords (trace w)
      ++ [(mkHistogram "log_duration_ms", d1, levelString lv1);
          (mkHistogram "log_duration_ms", d1 + d2, levelString lv2)].
Proof.
  intros Hlv1 Hlv2. rewrite (bind_returned _ _ _ _ _ (New_run w c nm)).
  set (l := fresh (dom (heap w))). set (w1 := setHeap _ w).
  rewrite (emitAt_nonfatal lv1 l msg1 Hlv1), (emitAt_nonfatal lv2 l msg2 Hlv2).
  rewrite (bind_returned (elapse d1) _ w1 _ tt eq_refl).
  set (w2 := mkWorld _ _ _ _ _ _ _).
  assert (H2 : heap w2 !! l = Some (newLogger w c nm)) by apply lookup_insert_eq.
  rewrite (bind_returned _ _ _ _ _ (log_run w2 l _ lv1 msg1 H2 Hlv1)).
  rewrite (bind_returned (elapse d2) _ _ _ tt eq_refl).
  set (w4 := mkWorld _ _ _ _ _ _ _).
  set (e3 := ended (clock w2) (started w2 (newLogger w c nm)) msg1 (levelString lv1)).
  assert (H4 : heap w4 !! l = Some e3) by apply lookup_insert_eq.
  rewrite (log_run w4 l e3 lv2 msg2 H4 Hlv2).
  cbn [fst emitted trace w4 w2 w1 setHeap clock].
  unfold histogramRecords. rewrite !omap_app.
  unfold startPart, sendPart, spanPart, metricsPart.
  cbn [span started e3 ended newLogger err logCounter durationHist start clock].
  replace (clock w + d1 - clock w) with d1 by lia.
  replace (clock w + d1 + d2 - clock w) with (d1 + d2) by lia.
  destruct (EnableLoki _); cbn [omap list_omap app globalCfg];
    rewrite ?app_nil_r, <- ?app_assoc; reflexivity.
Qed.

Lemma X9_duration_counts_from_creation_witness :
  histogramRecords
    (trace (fst ((l ← New [] "job";
                  elapse 200;; emitAt LvInfo l "start job";;
                  elapse 300;; emitAt LvInfo l "job completed") (Demo.world false))))
  = histogramRecords (trace (Demo.world false))
      ++ [(mkHistogram "log_duration_ms", 200, levelString LvInfo);
          (mkHistogram "log_duration_ms", 200 + 300, levelString LvInfo)].
Proof.
  apply (X9_duration_counts_from_creation (Demo.world false) [] "job" 200 300
           LvInfo "start job" LvInfo "job completed"); discriminate.
Defined.

(** ** The export entry *)

(** X10.  With export on, an emission below the fatal level puts exactly
    one entry on the export channel, whatever the logger.  The entry
    carries the message and exactly five labels: the level, the job and
    service names of the configuration, and the trace and span identifiers
    of the very span whose identifiers the log entry carries. *)
Theorem X10_export_entry_is_correlated_with_the_log_entry w l e lv msg :
  heap w !! l = Some e ->
  lv <> LvFatal ->
  EnableLoki (globalCfg w) = true ->
  exists entry,
    sentEntries (trace (fst (emitAt lv l msg w))) = sentEntries (trace w) ++ [entry]
    /\ Message entry = msg
    /\ Labels entry !! "level" = Some (levelString lv)
    /\ Labels entry !! "job" = Some (JobName (globalCfg w))
    /\ Labels entry !! "service" = Some (ServiceName (globalCfg w))
    /\ Labels entry !! "trace_id" = Some (traceIDString (emissionSpan w e))
    /\ Labels entry !! "span_id" = Some (spanIDString (emissionSpan w e))
    /\ size (Labels entry) = 5%nat
    /\ zapFieldLists (trace (fst (emitAt lv l msg w)))
       = zapFieldLists (trace w)
           ++ [[zap_String "trace_id" (traceIDString (emissionSpan w e));
                zap_String "span_id" (spanIDString (emissionSpan w e));
                zap_String "job" (JobName (globalCfg w));
                zap_String "service" (ServiceName (globalCfg w));
                zap_String "level" (levelString lv)] ++ fields e].
Proof.
  intros H Hlv Hon. exists (lokiEntry w e (levelString lv) msg).
  rewrite emitAt_nonfatal, (log_run w l e lv msg H Hlv) by exact Hlv.
  cbn [fst emitted trace].
  split; [|split; [reflexivity|]].
  - unfold sentEntries. rewrite !omap_app.
    unfold startPart, sendPart, spanPart, metricsPart. rewrite Hon, span_started.
    destruct (span e), (err (started w e)), (logCounter e), (durationHist e);
      cbn [omap list_omap app]; rewrite ?app_nil_r; reflexivity.
  - repeat (split; [reflexivity|]).
    rewrite !zapFieldLists_app, zapFieldLists_startPart, zapFieldLists_sendPart,
      zapFieldLists_spanPart, zapFieldLists_metricsPart.
    reflexivity.
Qed.

Lemma X10_export_entry_is_correlated_with_the_log_entry_witness :
  exists entry,
    sentEntries (trace (fst (emitAt LvWarn Demo.parentLoc "slow" (Demo.withParent true))))
    = sentEntries (trace (Demo.withParent true)) ++ [entry]
    /\ Message entry = "slow"
    /\ Labels entry !! "level" = Some (levelString LvWarn)
    /\ Labels entry !! "job" = Some (JobName (globalCfg (Demo.withParent true)))
    /\ Labels entry !! "service" = Some (ServiceName (globalCfg (Demo.withParent true)))
    /\ Labels entry !! "trace_id"
       = Some (traceIDString (emissionSpan (Demo.withParent true) (Demo.parent true)))
    /\ Labels entry !! "span_id"
       = Some (spanIDString (emissionSpan (Demo.withParent true) (Demo.parent true)))
    /\ size (Labels entry) = 5%nat
    /\ zapFieldLists (trace (fst (emitAt LvWarn Demo.parentLoc "slow" (Demo.withParent true))))
       = zapFieldLists (trace (Demo.withParent true))
           ++ [[zap_String "trace_id"
                  (traceIDString (emissionSpan (Demo.withParent true) (Demo.parent true)));
                zap_String "span_id"
                  (spanIDString (emissionSpan (Demo.withParent true) (Demo.parent true)));
                zap_String "job" (JobName (globalCfg (Demo.withParent true)));
                zap_String "service" (ServiceName (globalCfg (Demo.withParent true)));
                zap_String "level" (levelString LvWarn)] ++ fields (Demo.parent true)].
Proof.
  apply (X10_export_entry_is_correlated_with_the_log_entry (Demo.withParent true)
           Demo.parentLoc (Demo.parent true) LvWarn "slow").
  - reflexivity.
  - discriminate.
  - reflexivity.
Defined.

(** ** Child loggers *)

(** X11.  A child logger starts its span at once, under the name given
    to [Child], and no further span when it emits.  It inherits none of
    the parent's fields: at any severity its log entry carries the five
    correlation fields of the child's span and nothing else.  The parent
    is left as it was. *)
Theorem X11_child_has_its_own_span_and_no_inherited_fields w l e nm lv msg :
  heap w !! l = Some e ->
  startedSpans (trace (fst ((c ← Child l nm; emitAt lv c msg) w)))
  = startedSpans (trace w) ++ [(nm, rootSpan w)]
  /\ zapFieldLists (trace (fst ((c ← Child l nm; emitAt lv c msg) w)))
     = zapFieldLists (trace w) ++ [correlationFields w (rootSpan w) (levelString lv)]
  /\ heap (fst ((c ← Child l nm; emitAt lv c msg) w)) !! l = Some e.
Proof.
  intros H. rewrite (bind_returned _ _ _ _ _ (Child_run w l e nm H)).
  set (c := fresh (dom (heap w))). set (w1 := mkWorld _ _ _ _ _ _ _).
  assert (H1 : heap w1 !! c = Some (childOf w e nm)) by apply lookup_insert_eq.
  assert (Hne : l <> c).
  { intros ->. subst c. rewrite fresh_unallocated in H. discriminate. }
  split; [|split].
  - rewrite (emitAt_trace w1 c _ lv msg H1). cbn [w1 trace].
    unfold startedSpans. rewrite !omap_app.
    unfold startPart, sendPart, spanPart, metricsPart. cbn [span childOf started].
    destruct lv, (EnableLoki (globalCfg w1));
      cbn [omap list_omap app err logCounter]; rewrite ?app_nil_r; reflexivity.
  - rewrite (emitAt_trace w1 c _ lv msg H1).
    rewrite !zapFieldLists_app, zapFieldLists_startPart.
    assert (Hrest : zapFieldLists
              match lv with
              | LvFatal => []
              | _ => sendPart w1 (childOf w e nm) (levelString lv) msg
                       ++ spanPart (clock w1) (started w1 (childOf w e nm)) msg
                            (levelString lv)
                       ++ metricsPart (clock w1) (childOf w e nm) (levelString lv)
              end = []).
    { destruct lv; try reflexivity;
        rewrite !zapFieldLists_app, zapFieldLists_sendPart, zapFieldLists_spanPart,
          zapFieldLists_metricsPart; reflexivity. }
    rewrite Hrest. cbn [w1 trace]. rewrite zapFieldLists_app.
    unfold emissionFields. cbn [fields childOf]. rewrite !app_nil_r. reflexivity.
  - rewrite (proj1 (emitAt_frame w1 c l lv msg Hne)).
    cbn [w1 heap]. rewrite lookup_insert_ne by congruence. exact H.
Qed.

Lemma X11_child_has_its_own_span_and_no_inherited_fields_witness :
  startedSpans
    (trace (fst ((c ← Child Demo.parentLoc "step"; emitAt LvInfo c "done")
                   (fst (WithField Demo.parentLoc "order_id" (VString "123")
                           (Demo.withParent false))))))
  = startedSpans
      (trace (fst (WithField Demo.parentLoc "order_id" (VString "123")
                     (Demo.withParent false))))
      ++ [("step", rootSpan (fst (WithField Demo.parentLoc "order_id" (VString "123")
                                    (Demo.withParent false))))]
  /\ zapFieldLists
       (trace (fst ((c ← Child Demo.parentLoc "step"; emitAt LvInfo c "done")
                      (fst (WithField Demo.parentLoc "order_id" (VString "123")
                              (Demo.withParent false))))))
     = zapFieldLists
         (trace (fst (WithField Demo.parentLoc "order_id" (VString "123")
                        (Demo.withParent false))))
         ++ [correlationFields
               (fst (WithField Demo.parentLoc "order_id" (VString "123")
                       (Demo.withParent false)))
               (rootSpan (fst (WithField Demo.parentLoc "order_id" (VString "123")
                                 (Demo.withParent false))))
               (levelString LvInfo)]
  /\ heap (fst ((c ← Child Demo.parentLoc "step"; emitAt LvInfo c "done")
                  (fst (WithField Demo.parentLoc "order_id" (VString "123")
                          (Demo.withParent false))))) !! Demo.parentLoc
     = Some (withFieldsAdded (Demo.parent false) [("order_id", VString "123")]).
Proof.
  apply (X11_child_has_its_own_span_and_no_inherited_fields
           (fst (WithField Demo.parentLoc "order_id" (VString "123") (Demo.withParent false)))
           Demo.parentLoc
           (withFieldsAdded (Demo.parent false) [("order_id", VString "123")])
           "step" LvInfo "done").
  reflexivity.
Defined.

(** ** Spans by hand *)

Lemma WithTracer_run w l e nm fn :
  heap w !! l = Some e ->
  WithTracer l nm fn w
  = defer_ (emit (SpanEnd (rootSpan w))) (fn (CtxSpan (rootSpan w) :: ctx e))
      (setTrace (trace w ++ [TracerStart (tracer e) nm (rootSpan w)])
         (setNextSpan (S (nextSpan w)) w)).
Proof. intros H. unfold WithTracer. run. rewrite H. reflexivity. Qed.

(** X12.  [WithTracer] starts a span of its own and ends it when the
    function returns or panics; it does not make that span the logger's.
    An emission below the fatal level made through the same logger inside
    the function works on the logger's own span: the log entry carries
    that span's identifiers, that span is ended first and the span of
    [WithTracer] after it, also when the emission panics. *)
Theorem X12_WithTracer_span_is_not_the_loggers_span w l e nm lv msg :
  heap w !! l = Some e ->
  lv <> LvFatal ->
  snd (WithTracer l nm (fun _ => emitAt lv l msg) w) = metricsOutcome e
  /\ startedSpans (trace (fst (WithTracer l nm (fun _ => emitAt lv l msg) w)))
     = startedSpans (trace w)
         ++ (nm, rootSpan w)
         :: match span e with
            | Some _ => []
            | None => [(name e, emissionSpan (setNextSpan (S (nextSpan w)) w) e)]
            end
  /\ endedSpans (trace (fst (WithTracer l nm (fun _ => emitAt lv l msg) w)))
     = endedSpans (trace w)
         ++ [emissionSpan (setNextSpan (S (nextSpan w)) w) e; rootSpan w]
  /\ zapFieldLists (trace (fst (WithTracer l nm (fun _ => emitAt lv l msg) w)))
     = zapFieldLists (trace w)
         ++ [correlationFields w (emissionSpan (setNextSpan (S (nextSpan w)) w) e)
               (levelString lv) ++ fields e].
Proof.
  intros H Hlv. rewrite (WithTracer_run w l e nm _ H).
  set (w1 := setTrace _ _).
  assert (H1 : heap w1 !! l = Some e) by exact H.
  unfold defer_. rewrite emitAt_nonfatal, (log_run w1 l e lv msg H1 Hlv) by exact Hlv.
  assert (Hsp : emissionSpan w1 e = emissionSpan (setNextSpan (S (nextSpan w)) w) e)
    by reflexivity.
  assert (Hw : (let (w'', o) := emit (SpanEnd (rootSpan w)) (emitted w1 l e lv msg) in
                match o with
                | Returned _ => (w'', metricsOutcome e)
                | Panicked v => (w'', Panicked v)
                | Exited c => (w'', Exited c)
                end)
               = (setTrace (trace (emitted w1 l e lv msg) ++ [SpanEnd (rootSpan w)])
                    (emitted w1 l e lv msg), metricsOutcome e)) by reflexivity.
  assert (Hgo : match metricsOutcome e with
                | Exited c => (emitted w1 l e lv msg, Exited c)
                | _ => let (w'', o) := emit (SpanEnd (rootSpan w)) (emitted w1 l e lv msg) in
                       match o with
                       | Returned _ => (w'', metricsOutcome e)
                       | Panicked v => (w'', Panicked v)
                       | Exited c => (w'', Exited c)
                       end
                end
                = (setTrace (trace (emitted w1 l e lv msg) ++ [SpanEnd (rootSpan w)])
                     (emitted w1 l e lv msg), metricsOutcome e)).
  { rewrite Hw. unfold metricsOutcome.
    destruct (logCounter e), (durationHist e); reflexivity. }
  rewrite Hgo. cbn [fst snd setTrace trace emitted w1].
  split; [reflexivity|].
  unfold startedSpans, endedSpans. rewrite !zapFieldLists_app, !omap_app.
  rewrite zapFieldLists_startPart, zapFieldLists_sendPart, zapFieldLists_spanPart,
    zapFieldLists_metricsPart.
  unfold startPart, sendPart, spanPart, metricsPart, emissionFields.
  rewrite span_started, Hsp.
  destruct (span e), (err (started w1 e)), (EnableLoki (globalCfg w1)), (logCounter e),
    (durationHist e);
    cbn [omap list_omap app zapFieldLists]; rewrite ?app_nil_r, <- ?app_assoc;
    repeat split; reflexivity.
Qed.

Lemma X12_WithTracer_span_is_not_the_loggers_span_witness :
  snd (WithTracer Demo.parentLoc "resize-image"
         (fun _ => emitAt LvInfo Demo.parentLoc "start resize") (Demo.withParent false))
  = metricsOutcome (Demo.parent false)
  /\ startedSpans
       (trace (fst (WithTracer Demo.parentLoc "resize-image"
                      (fun _ => emitAt LvInfo Demo.parentLoc "start resize")
                      (Demo.withParent false))))
     = startedSpans (trace (Demo.withParent false))
         ++ ("resize-image", rootSpan (Demo.withParent false))
         :: match span (Demo.parent false) with
            | Some _ => []
            | None => [(name (Demo.parent false),
                        emissionSpan (setNextSpan (S (nextSpan (Demo.withParent false)))
                                        (Demo.withParent false)) (Demo.parent false))]
            end
  /\ endedSpans
       (trace (fst (WithTracer Demo.parentLoc "resize-image"
                      (fun _ => emitAt LvInfo Demo.parentLoc "start resize")
                      (Demo.withParent false))))
     = endedSpans (trace (Demo.withParent false))
         ++ [emissionSpan (setNextSpan (S (nextSpan (Demo.withParent false)))
                             (Demo.withParent false)) (Demo.parent false);
             rootSpan (Demo.withParent false)]
  /\ zapFieldLists
       (trace (fst (WithTracer Demo.parentLoc "resize-image"
                      (fun _ => emitAt LvInfo Demo.parentLoc "start resize")
                      (Demo.withParent false))))
     = zapFieldLists (trace (Demo.withParent false))
         ++ [correlationFields (Demo.withParent false)
               (emissionSpan (setNextSpan (S (nextSpan (Demo.withParent false)))
                                (Demo.withParent false)) (Demo.parent false))
               (levelString LvInfo) ++ fields (Demo.parent false)].
Proof.
  apply (X12_WithTracer_span_is_not_the_loggers_span (Demo.withParent false)
           Demo.parentLoc (Demo.parent false) "resize-image" LvInfo "start resize").
  - reflexivity.
  - discriminate.
Defined.

Lemma SetSpanAttr_run w l e key value :
  heap w !! l = Some e ->
  SetSpanAttr l key value w
  = (setTrace (trace w
                 ++ match span e with
                    | Some sp => [SpanSetAttributes sp
                                    [attribute_String key (Sprintf_v value)]]
                    | None => []
                    end) w, Returned tt).
Proof.
  intros H. unfold SetSpanAttr. run. rewrite H.
  destruct (span e); run; [reflexivity|].
  rewrite app_nil_r. destruct w; reflexivity.
Qed.

(** X13.  [SetSpanAttr] never touches the logger: on a logger that has
    no span yet (one built by [New] and not yet used) the attribute is
    dropped without a trace, and on a logger with a span it goes to the
    span at once, alone.  Either way it is not in the sorted snapshot the
    next emission hands to the span. *)
Theorem X13_SetSpanAttr_bypasses_the_attribute_buffer w l e key value lv msg :
  heap w !! l = Some e ->
  lv <> LvFatal ->
  heap (fst (SetSpanAttr l key value w)) = heap w
  /\ (span e = None -> SetSpanAttr l key value w = (w, Returned tt))
  /\ attrSnapshots (trace (fst ((SetSpanAttr l key value;; emitAt lv l msg) w)))
     = attrSnapshots (trace w)
         ++ match span e with
            | Some _ => [[attribute_String key (Sprintf_v value)]]
            | None => []
            end
         ++ [sortSliceStable (attrs e ++ closingAttrs (clock w) e msg (levelString lv))].
Proof.
  intros H Hlv. rewrite (SetSpanAttr_run w l e key value H). split; [reflexivity|]. split.
  - intros Hs. rewrite Hs, app_nil_r. destruct w; reflexivity.
  - rewrite (bind_returned _ _ _ _ _ (SetSpanAttr_run w l e key value H)).
    set (w1 := setTrace _ w).
    assert (H1 : heap w1 !! l = Some e) by exact H.
    rewrite emitAt_nonfatal, (log_run w1 l e lv msg H1 Hlv) by exact Hlv.
    cbn [fst emitted trace w1 setTrace clock].
    rewrite !attrSnapshots_app, attrSnapshots_startPart, attrSnapshots_sendPart,
      attrSnapshots_spanPart_started, attrSnapshots_metricsPart.
    destruct (span e); cbn [attrSnapshots omap list_omap app];
      rewrite ?app_nil_r, <- ?app_assoc; reflexivity.
Qed.

Lemma X13_SetSpanAttr_bypasses_the_attribute_buffer_witness :
  heap (fst (SetSpanAttr Demo.parentLoc "size" (VString "1024x768") (Demo.withParent false)))
  = heap (Demo.withParent false)
  /\ (span (Demo.parent false) = None ->
      SetSpanAttr Demo.parentLoc "size" (VString "1024x768") (Demo.withParent false)
      = (Demo.withParent false, Returned tt))
  /\ attrSnapshots
       (trace (fst ((SetSpanAttr Demo.parentLoc "size" (VString "1024x768");;
                     emitAt LvInfo Demo.parentLoc "resized") (Demo.withParent false))))
     = attrSnapshots (trace (Demo.withParent false))
         ++ match span (Demo.parent false) with
            | Some _ => [[attribute_String "size" (Sprintf_v (VString "1024x768"))]]
            | None => []
            end
         ++ [sortSliceStable
               (attrs (Demo.parent false)
                  ++ closingAttrs (clock (Demo.withParent false)) (Demo.parent false)
                       "resized" (levelString LvInfo))].
Proof.
  apply (X13_SetSpanAttr_bypasses_the_attribute_buffer (Demo.withParent false)
           Demo.parentLoc (Demo.parent false) "size" (VString "1024x768") LvInfo "resized").
  - reflexivity.
  - discriminate.
Defined.

(** X14.  The logger does not hold back calls on a span it has ended:
    after an emission, [SetSpanAttr] still calls [SetAttributes] on the
    span that the emission ended. *)
Theorem X14_SetSpanAttr_after_an_emission_reaches_the_ended_span
    w l e c h lv msg key value :
  heap w !! l = Some e ->
  logCounter e = Some c ->
  durationHist e = Some h ->
  lv <> LvFatal ->
  snd ((emitAt lv l msg;; SetSpanAttr l key value) w) = Returned tt
  /\ endedSpans (trace (fst ((emitAt lv l msg;; SetSpanAttr l key value) w)))
     = endedSpans (trace w) ++ [emissionSpan w e]
  /\ last (trace (fst ((emitAt lv l msg;; SetSpanAttr l key value) w)))
     = Some (SpanSetAttributes (emissionSpan w e)
               [attribute_String key (Sprintf_v value)]).
Proof.
  intros H Hc Hh Hlv.
  assert (Hout : metricsOutcome e = Returned tt)
    by (unfold metricsOutcome; rewrite Hc, Hh; reflexivity).
  pose proof (log_run w l e lv msg H Hlv) as Hrun. rewrite Hout in Hrun.
  rewrite emitAt_nonfatal by exact Hlv.
  rewrite (bind_returned _ _ _ _ _ Hrun).
  set (e1 := ended (clock w) (started w e) msg (levelString lv)).
  assert (H1 : heap (emitted w l e lv msg) !! l = Some e1) by apply lookup_insert_eq.
  rewrite (SetSpanAttr_run _ l e1 key value H1).
  assert (Hs1 : span e1 = Some (emissionSpan w e)) by (subst e1; simpl; apply span_started).
  rewrite Hs1. cbn [fst snd setTrace trace emitted].
  split; [reflexivity|]. split.
  - rewrite !endedSpans_app, endedSpans_startPart, endedSpans_sendPart,
      endedSpans_spanPart_started, endedSpans_metricsPart.
    cbn [endedSpans omap list_omap app]. rewrite !app_nil_r. reflexivity.
  - apply last_snoc.
Qed.

Lemma X14_SetSpanAttr_after_an_emission_reaches_the_ended_span_witness :
  snd ((emitAt LvInfo Demo.parentLoc "done";; SetSpanAttr Demo.parentLoc "late" (VInt 1))
         (Demo.withParent false)) = Returned tt
  /\ endedSpans
       (trace (fst ((emitAt LvInfo Demo.parentLoc "done";;
                     SetSpanAttr Demo.parentLoc "late" (VInt 1)) (Demo.withParent false))))
     = endedSpans (trace (Demo.withParent false))
         ++ [emissionSpan (Demo.withParent false) (Demo.parent false)]
  /\ last (trace (fst ((emitAt LvInfo Demo.parentLoc "done";;
                        SetSpanAttr Demo.parentLoc "late" (VInt 1))
                         (Demo.withParent false))))
     = Some (SpanSetAttributes (emissionSpan (Demo.withParent false) (Demo.parent false))
               [attribute_String "late" (Sprintf_v (VInt 1))]).
Proof.
  apply (X14_SetSpanAttr_after_an_emission_reaches_the_ended_span (Demo.withParent false)
           Demo.parentLoc (Demo.parent false) (mkCounter "log_total")
           (mkHistogram "log_duration_ms") LvInfo "done" "late" (VInt 1)).
  - reflexivity.
  - reflexivity.
  - reflexivity.
  - discriminate.
Defined.

Lemma SetSpanError_run w l e x :
  heap w !! l = Some e ->
  SetSpanError l (Some x) w
  = (setTrace (trace w
                 ++ match span e with
                    | Some sp => [SpanRecordError sp x]
                    | None => []
                    end) w, Returned tt).
Proof.
  intros H. unfold SetSpanError. run. rewrite H.
  destruct (span e); run; [reflexivity|].
  rewrite app_nil_r. destruct w; reflexivity.
Qed.

(** X15.  [SetSpanError] with a nil error does nothing, even through a
    logger address that holds nothing, and with a non-nil error on a
    logger without a span it does nothing either.  Unlike [WithError] it
    records the error on the span at once and keeps nothing: the next
    emission does not record it again, the error is not reported to the
    error-reporting collaborator, and the log entry has no field for it. *)
Theorem X15_SetSpanError_records_once_and_keeps_nothing w l e x lv msg :
  heap w !! l = Some e ->
  lv <> LvFatal ->
  (forall w0 l0, SetSpanError l0 None w0 = (w0, Returned tt))
  /\ (span e = None -> SetSpanError l (Some x) w = (w, Returned tt))
  /\ recordedErrors (trace (fst ((SetSpanError l (Some x);; emitAt lv l msg) w)))
     = recordedErrors (trace w)
         ++ match span e with Some sp => [(sp, x)] | None => [] end
         ++ match err e with Some y => [(emissionSpan w e, y)] | None => [] end
  /\ reportedErrors (trace (fst ((SetSpanError l (Some x);; emitAt lv l msg) w)))
     = reportedErrors (trace w)
  /\ zapFieldLists (trace (fst ((SetSpanError l (Some x);; emitAt lv l msg) w)))
     = zapFieldLists (trace w)
         ++ [correlationFields w (emissionSpan w e) (levelString lv) ++ fields e].
Proof.
  intros H Hlv. split; [reflexivity|]. split.
  - intros Hs. rewrite (SetSpanError_run w l e x H), Hs, app_nil_r.
    destruct w; reflexivity.
  - rewrite (bind_returned _ _ _ _ _ (SetSpanError_run w l e x H)).
    set (w1 := setTrace _ w).
    assert (H1 : heap w1 !! l = Some e) by exact H.
    rewrite emitAt_nonfatal, (log_run w1 l e lv msg H1 Hlv) by exact Hlv.
    cbn [fst emitted trace w1 setTrace clock].
    unfold recordedErrors, reportedErrors.
    rewrite !zapFieldLists_app, !omap_app.
    rewrite zapFieldLists_startPart, zapFieldLists_sendPart, zapFieldLists_spanPart,
      zapFieldLists_metricsPart.
    unfold startPart, sendPart, spanPart, metricsPart. rewrite span_started, err_started.
    destruct (span e) eqn:Es, (err e), (EnableLoki (globalCfg w1)), (logCounter e),
      (durationHist e);
      cbn [omap list_omap app zapFieldLists]; rewrite ?app_nil_r, <- ?app_assoc;
      repeat split; reflexivity.
Qed.

Lemma X15_SetSpanError_records_once_and_keeps_nothing_witness :
  (forall w0 l0, SetSpanError l0 None w0 = (w0, Returned tt))
  /\ (span (Demo.parent false) = None ->
      SetSpanError Demo.parentLoc (Some (mkError "boom")) (Demo.withParent false)
      = (Demo.withParent false, Returned tt))
  /\ recordedErrors
       (trace (fst ((SetSpanError Demo.parentLoc (Some (mkError "boom"));;
                     emitAt LvError Demo.parentLoc "failed") (Demo.withParent false))))
     = recordedErrors (trace (Demo.withParent false))
         ++ match span (Demo.parent false) with
            | Some sp => [(sp, mkError "boom")]
            | None => []
            end
         ++ match err (Demo.parent false) with
            | Some y => [(emissionSpan (Demo.withParent false) (Demo.parent false), y)]
            | None => []
            end
  /\ reportedErrors
       (trace (fst ((SetSpanError Demo.parentLoc (Some (mkError "boom"));;
                     emitAt LvError Demo.parentLoc "failed") (Demo.withParent false))))
     = reportedErrors (trace (Demo.withParent false))
  /\ zapFieldLists
       (trace (fst ((SetSpanError Demo.parentLoc (Some (mkError "boom"));;
                     emitAt LvError Demo.parentLoc "failed") (Demo.withParent false))))
     = zapFieldLists (trace (Demo.withParent false))
         ++ [correlationFields (Demo.withParent false)
               (emissionSpan (Demo.withParent false) (Demo.parent false))
               (levelString LvError) ++ fields (Demo.parent false)].
Proof.
  apply (X15_SetSpanError_records_once_and_keeps_nothing (Demo.withParent false)
           Demo.parentLoc (Demo.parent false) (mkError "boom") LvError "failed").
  - reflexivity.
  - discriminate.
Defined.

(** ** The logger of a request *)

Lemma ctxLoggerValue_skips top c :
  Forall notLogger top -> ctxLoggerValue (top ++ c) = ctxLoggerValue c.
Proof.
  induction 1 as [|en top Hen _ IH]; [reflexivity|].
  destruct en; [destruct Hen| |]; exact IH.
Qed.

(** X16.  What [Inject] stores is what [FromContext] finds, however
    many values were stored under other keys afterwards (the spans that
    [Child], [WithTracer] and the emissions add, or anything else): the
    lookup returns the injected [*Eotel] and builds nothing.  Through a
    request the later of two injections wins: after a logger of any kind
    and then an [*Eotel] are injected, [FromGin] returns that [*Eotel],
    and the injections change the context of the request and nothing
    else. *)
Theorem X16_injected_logger_is_found_under_later_values w l l' c top lg p nm :
  Forall notLogger top ->
  FromContext l' (top ++ Inject l c (EotelPtr (Some p))) nm w = (w, Returned (Some p))
  /\ (InjectToGin l lg;; InjectToGin l (EotelPtr (Some p));; FromGin l' nm) w
     = (setGin (setReqCtx (CtxLogger (EotelPtr (Some p)) :: CtxLogger lg :: reqCtx (gin w))
                  (gin w)) w,
        Returned (Some p)).
Proof.
  intros Htop. split; [|reflexivity].
  unfold FromContext. rewrite (ctxLoggerValue_skips top _ Htop). reflexivity.
Qed.

Lemma X16_injected_logger_is_found_under_later_values_witness :
  FromContext 1%positive
    ([CtxSpan (mkSpan 4 "t" "s"); CtxOther "request-id" (VString "r-1")]
       ++ Inject 1%positive [] (EotelPtr (Some Demo.parentLoc))) "handler"
    (Demo.withParent false)
  = (Demo.withParent false, Returned (Some Demo.parentLoc))
  /\ (InjectToGin 1%positive (OtherLogger 3);;
      InjectToGin 1%positive (EotelPtr (Some Demo.parentLoc));;
      FromGin 1%positive "handler") (Demo.withParent false)
     = (setGin (setReqCtx (CtxLogger (EotelPtr (Some Demo.parentLoc))
                             :: CtxLogger (OtherLogger 3)
                             :: reqCtx (gin (Demo.withParent false)))
                  (gin (Demo.withParent false))) (Demo.withParent false),
        Returned (Some Demo.parentLoc)).
Proof.
  apply (X16_injected_logger_is_found_under_later_values (Demo.withParent false)
           1%positive 1%positive []
           [CtxSpan (mkSpan 4 "t" "s"); CtxOther "request-id" (VString "r-1")]
           (OtherLogger 3) Demo.parentLoc "handler").
  repeat constructor.
Defined.

Lemma emittingHandler_run w nm l0 lv msg :
  lv <> LvFatal ->
  emittingHandler l0 lv msg (serving w nm)
  = (emitted (serving w nm) (fresh (dom (heap w))) (requestLogger w nm) lv msg,
     Returned tt).
Proof.
  intros Hlv. unfold emittingHandler, FromGin, FromContext.
  unfold mbind at 1, M_bind at 1, mbind at 1, M_bind at 1, getWorld at 1.
  cbn [serving gin setReqCtx reqCtx ctxLoggerValue].
  unfold mret at 1, M_ret at 1, receiver.
  unfold mbind at 1, M_bind at 1, mret at 1, M_ret at 1.
  rewrite emitAt_nonfatal by exact Hlv.
  rewrite (log_run _ _ (requestLogger w nm) lv msg) by (apply lookup_insert_eq || exact Hlv).
  reflexivity.
Qed.

(** X17.  A handler that runs under the middleware and resolves its
    logger from the request gets the logger the middleware built: its
    entry carries, after the five correlation fields, the method, path,
    client address and user agent of the request, in this order.  The
    entry is written on the logger's own span, started at that emission
    under the name given to [Middleware]; the root span of the request
    is ended last, after the handler has returned. *)
Theorem X17_handler_logs_with_the_request_fields w nm l0 lv msg :
  lv <> LvFatal ->
  snd (Middleware nm (emittingHandler l0 lv msg) w) = Returned tt
  /\ zapFieldLists (trace (fst (Middleware nm (emittingHandler l0 lv msg) w)))
     = zapFieldLists (trace w)
         ++ [correlationFields w (emissionSpan (serving w nm) (requestLogger w nm))
               (levelString lv)
               ++ [zap_Any "method" (VString (reqMethod (gin w)));
                   zap_Any "path" (VString (reqURLPath (gin w)));
                   zap_Any "ip" (VString (reqClientIP (gin w)));
                   zap_Any "ua" (VString (reqUserAgent (gin w)))]]
  /\ startedSpans (trace (fst (Middleware nm (emittingHandler l0 lv msg) w)))
     = startedSpans (trace w)
         ++ [(reqMethod (gin w) +:+ " " +:+ reqFullPath (gin w), rootSpan w);
             (nm, emissionSpan (serving w nm) (requestLogger w nm))]
  /\ endedSpans (trace (fst (Middleware nm (emittingHandler l0 lv msg) w)))
     = endedSpans (trace w)
         ++ [emissionSpan (serving w nm) (requestLogger w nm); rootSpan w].
Proof.
  intros Hlv. rewrite Middleware_run. unfold defer_.
  rewrite (emittingHandler_run w nm l0 lv msg Hlv).
  unfold discard, emit, mret, M_ret.
  cbn [fst snd setTrace trace emitted serving].
  split; [reflexivity|].
  unfold startedSpans, endedSpans. rewrite !zapFieldLists_app, !omap_app.
  rewrite zapFieldLists_startPart, zapFieldLists_sendPart, zapFieldLists_spanPart,
    zapFieldLists_metricsPart.
  unfold startPart, sendPart, spanPart, metricsPart.
  cbn [span started requestLogger withFieldsAdded newLogger err logCounter durationHist
         name].
  destruct (EnableLoki _);
    cbn [omap list_omap app zapFieldLists]; rewrite ?app_nil_r, <- ?app_assoc;
    repeat split; reflexivity.
Qed.

Lemma X17_handler_logs_with_the_request_fields_witness :
  snd (Middleware "gin-server" (emittingHandler 1%positive LvInfo "health check pinged")
         (Demo.world true)) = Returned tt
  /\ zapFieldLists
       (trace (fst (Middleware "gin-server"
                      (emittingHandler 1%positive LvInfo "health check pinged")
                      (Demo.world true))))
     = zapFieldLists (trace (Demo.world true))
         ++ [correlationFields (Demo.world true)
               (emissionSpan (serving (Demo.world true) "gin-server")
                  (requestLogger (Demo.world true) "gin-server"))
               (levelString LvInfo)
               ++ [zap_Any "method" (VString (reqMethod (gin (Demo.world true))));
                   zap_Any "path" (VString (reqURLPath (gin (Demo.world true))));
                   zap_Any "ip" (VString (reqClientIP (gin (Demo.world true))));
                   zap_Any "ua" (VString (reqUserAgent (gin (Demo.world true))))]]
  /\ startedSpans
       (trace (fst (Middleware "gin-server"
                      (emittingHandler 1%positive LvInfo "health check pinged")
                      (Demo.world true))))
     = startedSpans (trace (Demo.world true))
         ++ [(reqMethod (gin (Demo.world true)) +:+ " "
                +:+ reqFullPath (gin (Demo.world true)), rootSpan (Demo.world true));
             ("gin-server",
              emissionSpan (serving (Demo.world true) "gin-server")
                (requestLogger (Demo.world true) "gin-server"))]
  /\ endedSpans
       (trace (fst (Middleware "gin-server"
                      (emittingHandler 1%positive LvInfo "health check pinged")
                      (Demo.world true))))
     = endedSpans (trace (Demo.world true))
         ++ [emissionSpan (serving (Demo.world true) "gin-server")
               (requestLogger (Demo.world true) "gin-server");
             rootSpan (Demo.world true)].
Proof.
  apply (X17_handler_logs_with_the_request_fields (Demo.world true) "gin-server"
           1%positive LvInfo "health check pinged").
  discriminate.
Defined.

(** X18.  When the handler returns, the middleware returns and has
    added nothing to what the handler did but the end of the root span;
    when the handler ends the process, as a [Fatal] in it does, the
    deferred calls do not run and the root span is never ended. *)
Theorem X18_root_span_ends_on_return_and_not_on_exit w nm next w' o :
  next (serving w nm) = (w', o) ->
  (forall v, o <> Panicked v) ->
  Middleware nm next w
  = match o with
    | Exited code => (w', Exited code)
    | _ => (setTrace (trace w' ++ [SpanEnd (rootSpan w)]) w', o)
    end.
Proof.
  intros Hn Hnp. rewrite Middleware_run. unfold defer_. rewrite Hn.
  destruct o as [[]|v|code]; [reflexivity| |reflexivity].
  destruct (Hnp v). reflexivity.
Qed.

Lemma X18_root_span_ends_on_return_and_not_on_exit_witness :
  Middleware "gin-server" (r ← FromGin 1%positive "handler"; q ← receiver r; Fatal q "stop")
    (Demo.world false)
  = (written (serving (Demo.world false) "gin-server") 1%positive
       (requestLogger (Demo.world false) "gin-server") LvFatal "stop",
     Exited 1).
Proof.
  apply (X18_root_span_ends_on_return_and_not_on_exit (Demo.world false) "gin-server"
           (r ← FromGin 1%positive "handler"; q ← receiver r; Fatal q "stop")
           (written (serving (Demo.world false) "gin-server") 1%positive
              (requestLogger (Demo.world false) "gin-server") LvFatal "stop")
           (Exited 1)).
  - reflexivity.
  - discriminate.
Defined.

(** X19.  The context the middleware stores in the request carries the
    request logger, but the logger's own context does not: a handler
    that resolves a logger from [Ctx()] of the request logger, when the
    incoming request carried no logger, gets a fresh logger at another
    address, without the request fields. *)
Theorem X19_request_logger_is_not_in_its_own_context w nm l0 :
  ctxLoggerValue (reqCtx (gin w)) = NilLogger ->
  exists p,
    snd (Middleware nm (r ← FromGin l0 "handler";
                        q ← receiver r;
                        c ← Ctx q;
                        r' ← FromContext q c "inner";
                        q' ← receiver r';
                        mret tt) w) = Returned tt
    /\ p <> fresh (dom (heap w))
    /\ heap (fst (Middleware nm (r ← FromGin l0 "handler";
                                 q ← receiver r;
                                 c ← Ctx q;
                                 r' ← FromContext q c "inner";
                                 q' ← receiver r';
                                 mret tt) w)) !! p
       = Some (newLogger w (CtxSpan (rootSpan w) :: reqCtx (gin w)) "inner")
    /\ heap (fst (Middleware nm (r ← FromGin l0 "handler";
                                 q ← receiver r;
                                 c ← Ctx q;
                                 r' ← FromContext q c "inner";
                                 q' ← receiver r';
                                 mret tt) w)) !! fresh (dom (heap w))
       = Some (requestLogger w nm).
Proof.
  intros Hnil.
  set (l := fresh (dom (heap w))).
  set (h1 := <[l := requestLogger w nm]> (heap w)).
  exists (fresh (dom h1)).
  assert (Hne : fresh (dom h1) <> l).
  { intros Heq. pose proof (fresh_unallocated h1) as Hf. rewrite Heq in Hf.
    subst h1. rewrite lookup_insert_eq in Hf. discriminate. }
  assert (Hrun : (r ← FromGin l0 "handler";
                  q ← receiver r;
                  c ← Ctx q;
                  r' ← FromContext q c "inner";
                  q' ← receiver r';
                  mret tt) (serving w nm)
                 = (setHeap (<[fresh (dom h1)
                               := newLogger w (CtxSpan (rootSpan w) :: reqCtx (gin w))
                                    "inner"]> h1) (serving w nm), Returned tt)).
  { assert (H1 : FromGin l0 "handler" (serving w nm) = (serving w nm, Returned (Some l)))
      by reflexivity.
    rewrite (bind_returned _ _ _ _ _ H1).
    rewrite (bind_returned (receiver (Some l)) _ (serving w nm) _ l eq_refl).
    assert (H3 : Ctx l (serving w nm)
                 = (serving w nm, Returned (CtxSpan (rootSpan w) :: reqCtx (gin w)))).
    { unfold Ctx, load, serving. run. fold l. rewrite lookup_insert_eq. reflexivity. }
    rewrite (bind_returned _ _ _ _ _ H3).
    assert (H4 : FromContext l (CtxSpan (rootSpan w) :: reqCtx (gin w)) "inner"
                   (serving w nm)
                 = (setHeap (<[fresh (dom h1)
                               := newLogger w (CtxSpan (rootSpan w) :: reqCtx (gin w))
                                    "inner"]> h1) (serving w nm),
                    Returned (Some (fresh (dom h1))))).
    { unfold FromContext. cbn [ctxLoggerValue]. rewrite Hnil. reflexivity. }
    rewrite (bind_returned _ _ _ _ _ H4). reflexivity. }
  rewrite Middleware_run. unfold defer_. rewrite Hrun.
  unfold discard, emit, mret, M_ret. cbn [fst snd setTrace setHeap heap].
  split; [reflexivity|]. split; [exact Hne|]. split.
  - apply lookup_insert_eq.
  - rewrite lookup_insert_ne by exact Hne. apply lookup_insert_eq.
Qed.

Lemma X19_request_logger_is_not_in_its_own_context_witness :
  exists p,
    snd (Middleware "gin-server"
           (r ← FromGin 1%positive "handler";
            q ← receiver r;
            c ← Ctx q;
            r' ← FromContext q c "inner";
            q' ← receiver r';
            mret tt) (Demo.world false)) = Returned tt
    /\ p <> fresh (dom (heap (Demo.world false)))
    /\ heap (fst (Middleware "gin-server"
                    (r ← FromGin 1%positive "handler";
                     q ← receiver r;
                     c ← Ctx q;
                     r' ← FromContext q c "inner";
                     q' ← receiver r';
                     mret tt) (Demo.world false))) !! p
       = Some (newLogger (Demo.world false)
                 (CtxSpan (rootSpan (Demo.world false)) :: reqCtx (gin (Demo.world false)))
                 "inner")
    /\ heap (fst (Middleware "gin-server"
                    (r ← FromGin 1%positive "handler";
                     q ← receiver r;
                     c ← Ctx q;
                     r' ← FromContext q c "inner";
                     q' ← receiver r';
                     mret tt) (Demo.world false))) !! fresh (dom (heap (Demo.world false)))
       = Some (requestLogger (Demo.world false) "gin-server").
Proof.
  apply (X19_request_logger_is_not_in_its_own_context (Demo.world false) "gin-server"
           1%positive).
  reflexivity.
Defined.

(** ** Timers *)

Lemma Stop_run x t e :
  heap (base x) !! timerLogger t = Some e ->
  Stop t x
  = (mkWorldX (base x)
       (addEvents x
          ++ match span e with
             | Some sp => [mkAddEvent sp (timerName t)
                             [attribute_Float64Ms "custom.duration_ms"
                                (clock (base x) - timerStart t)]]
             | None => []
             end), Returned tt).
Proof.
  intros H. unfold Stop, SpanEvent, liftX, span_AddEvent, load, time_Now.
  unfold mbind, MX_bind, mret, MX_ret. simpl. rewrite H. simpl.
  destruct (span e); simpl; [reflexivity|].
  rewrite app_nil_r. destruct x as [b a]. destruct b. reflexivity.
Qed.

(** X20.  A timer records through its logger's span and has no stopped
    state.  On a logger with a span, each [Stop] adds one event under the
    timer's name whose duration is the time since [Start], so a second
    [Stop] adds a second event with the longer duration.  On a logger
    without a span (one built by [New] and not yet used) every [Stop] is
    dropped and nothing is measured.  Neither call touches a logger or
    the other backends. *)
Theorem X20_timer_records_at_every_Stop_and_only_on_a_span x l e nm d1 d2 :
  heap (base x) !! l = Some e ->
  snd ((t ← Start l nm;
        liftX (elapse d1);; Stop t;; liftX (elapse d2);; Stop t) x) = Returned tt
  /\ addEvents (fst ((t ← Start l nm;
                      liftX (elapse d1);; Stop t;; liftX (elapse d2);; Stop t) x))
     = addEvents x
         ++ match span e with
            | Some sp =>
                [mkAddEvent sp nm [attribute_Float64Ms "custom.duration_ms" d1];
                 mkAddEvent sp nm [attribute_Float64Ms "custom.duration_ms" (d1 + d2)]]
            | None => []
            end
  /\ heap (base (fst ((t ← Start l nm;
                       liftX (elapse d1);; Stop t;; liftX (elapse d2);; Stop t) x)))
     = heap (base x)
  /\ trace (base (fst ((t ← Start l nm;
                        liftX (elapse d1);; Stop t;; liftX (elapse d2);; Stop t) x)))
     = trace (base x).
Proof.
  intros H.
  assert (Hrun : (t ← Start l nm;
                  liftX (elapse d1);; Stop t;; liftX (elapse d2);; Stop t) x
                 = (mkWorldX
                      (mkWorld (globalCfg (base x)) (heap (base x)) (nextSpan (base x))
                         (spanIDs (base x)) (clock (base x) + d1 + d2) (gin (base x))
                         (trace (base x)))
                      (addEvents x
                         ++ match span e with
                            | Some sp =>
                                [mkAddEvent sp nm
                                   [attribute_Float64Ms "custom.duration_ms" d1];
                                 mkAddEvent sp nm
                                   [attribute_Float64Ms "custom.duration_ms" (d1 + d2)]]
                            | None => []
                            end), Returned tt)).
  { unfold Start. unfold mbind at 1, MX_bind at 1, mbind at 1, MX_bind at 1.
    unfold liftX at 1, time_Now at 1, mret at 1, MX_ret at 1. cbn [fst snd].
    unfold mbind at 1, MX_bind at 1, liftX at 1, elapse at 1. cbn [fst snd base addEvents].
    set (t := mkTimer nm l (clock (base x))).
    unfold mbind at 1, MX_bind at 1.
    rewrite (Stop_run _ t e) by exact H.
    unfold mbind at 1, MX_bind at 1, liftX at 1, elapse at 1. cbn [fst snd base addEvents].
    rewrite (Stop_run _ t e) by exact H.
    unfold elapse, time_Now. cbn [fst snd base addEvents clock timerStart timerName t].
    replace (clock (base x) + d1 - clock (base x)) with d1 by lia.
    replace (clock (base x) + d1 + d2 - clock (base x)) with (d1 + d2) by lia.
    destruct (span e); rewrite <- ?app_assoc, ?app_nil_r; reflexivity. }
  rewrite Hrun. repeat split; reflexivity.
Qed.

Lemma X20_timer_records_at_every_Stop_and_only_on_a_span_witness :
  snd ((t ← Start Demo.parentLoc "connect-db";
        liftX (elapse 5);; Stop t;; liftX (elapse 7);; Stop t)
         (mkWorldX (fst (Info Demo.parentLoc "begin" (Demo.withParent false))) []))
  = Returned tt
  /\ addEvents
       (fst ((t ← Start Demo.parentLoc "connect-db";
              liftX (elapse 5);; Stop t;; liftX (elapse 7);; Stop t)
               (mkWorldX (fst (Info Demo.parentLoc "begin" (Demo.withParent false))) [])))
     = [mkAddEvent (mkSpan 0 "trace-0" "span-0") "connect-db"
          [attribute_Float64Ms "custom.duration_ms" 5];
        mkAddEvent (mkSpan 0 "trace-0" "span-0") "connect-db"
          [attribute_Float64Ms "custom.duration_ms" (5 + 7)]]
  /\ heap (base (fst ((t ← Start Demo.parentLoc "connect-db";
                       liftX (elapse 5);; Stop t;; liftX (elapse 7);; Stop t)
                        (mkWorldX (fst (Info Demo.parentLoc "begin" (Demo.withParent false)))
                           []))))
     = heap (fst (Info Demo.parentLoc "begin" (Demo.withParent false)))
  /\ trace (base (fst ((t ← Start Demo.parentLoc "connect-db";
                        liftX (elapse 5);; Stop t;; liftX (elapse 7);; Stop t)
                         (mkWorldX (fst (Info Demo.parentLoc "begin" (Demo.withParent false)))
                            []))))
     = trace (fst (Info Demo.parentLoc "begin" (Demo.withParent false))).
Proof.
  apply (X20_timer_records_at_every_Stop_and_only_on_a_span
           (mkWorldX (fst (Info Demo.parentLoc "begin" (Demo.withParent false))) [])
           Demo.parentLoc
           (ended 0 (started (Demo.withParent false) (Demo.parent false)) "begin" "info")
           "connect-db" 5 7).
  reflexivity.
Defined.

(** ** The snapshot and the order of a map *)

Lemma ascii_compare_lt_trans a b c :
  Ascii.compare a b = Lt -> Ascii.compare b c = Lt -> Ascii.compare a c = Lt.
Proof.
  unfold Ascii.compare. rewrite !N.compare_lt_iff. apply N.lt_trans.
Qed.

Lemma string_compare_lt_trans s : forall t u,
  String.compare s t = Lt -> String.compare t u = Lt -> String.compare s u = Lt.
Proof.
  induction s as [|a s IH]; intros [|b t] [|c u]; simpl; try congruence.
  destruct (Ascii.compare a b) eqn:Eab; try congruence.
  - apply Ascii.compare_eq_iff in Eab. subst b.
    destruct (Ascii.compare a c) eqn:Eac; try congruence. apply IH.
  - intros _. destruct (Ascii.compare b c) eqn:Ebc; try congruence.
    + apply Ascii.compare_eq_iff in Ebc. subst c. rewrite Eab. reflexivity.
    + rewrite (ascii_compare_lt_trans a b c Eab Ebc). reflexivity.
Qed.

Lemma ltb_trans s t u :
  String.ltb s t = true -> String.ltb t u = true -> String.ltb s u = true.
Proof.
  unfold String.ltb. intros H1 H2.
  destruct (String.compare s t) eqn:E1; try discriminate.
  destruct (String.compare t u) eqn:E2; try discriminate.
  rewrite (string_compare_lt_trans s t u E1 E2). reflexivity.
Qed.

(** Two keys neither of which is below the other are the same key. *)
Lemma ltb_neither s t : String.ltb s t = false -> String.ltb t s = false -> s = t.
Proof.
  unfold String.ltb. rewrite (String.compare_antisym t s). intros H1 H2.
  apply String.compare_eq_iff. destruct (String.compare s t); simpl in *; congruence.
Qed.

Lemma keyOrdered_trans a b c : keyOrdered a b -> keyOrdered b c -> keyOrdered a c.
Proof.
  unfold keyOrdered, keyLess. intros Hab Hbc.
  destruct (String.ltb (Key c) (Key a)) eqn:Hca; [|reflexivity].
  destruct (String.ltb (Key a) (Key b)) eqn:Hlt.
  - rewrite (ltb_trans _ _ _ Hca Hlt) in Hbc. discriminate.
  - rewrite <- (ltb_neither _ _ Hlt Hab) in Hbc. congruence.
Qed.

Lemma sorted_strongly l : Sorted keyOrdered l -> StronglySorted keyOrdered l.
Proof. apply Sorted_StronglySorted. intros a b c. apply keyOrdered_trans. Qed.

Lemma hasKey_self a : hasKey (Key a) a = true.
Proof. unfold hasKey. apply String.eqb_refl. Qed.

Lemma filter_hasKey_In k a l : In a (List.filter (hasKey k) l) -> In a l.
Proof. intros H. apply List.filter_In in H. tauto. Qed.

(** Two lists in key order with the same entries under every key, in the
    same order, are the same list. *)
Lemma sorted_by_key_unique l1 : forall l2,
  Sorted keyOrdered l1 -> Sorted keyOrdered l2 ->
  (forall k, List.filter (hasKey k) l1 = List.filter (hasKey k) l2) ->
  l1 = l2.
Proof.
  induction l1 as [|x l1 IH]; intros l2 S1 S2 Hf.
  - destruct l2 as [|y l2]; [reflexivity|].
    specialize (Hf (Key y)). cbn [List.filter] in Hf. rewrite hasKey_self in Hf. discriminate.
  - destruct l2 as [|y l2].
    { specialize (Hf (Key x)). cbn [List.filter] in Hf. rewrite hasKey_self in Hf.
      discriminate. }
    pose proof (sorted_strongly _ S1) as SS1. pose proof (sorted_strongly _ S2) as SS2.
    apply StronglySorted_inv in SS1 as [_ F1]. apply StronglySorted_inv in SS2 as [_ F2].
    rewrite List.Forall_forall in F1, F2.
    assert (Hk : Key x = Key y).
    { destruct (String.eqb (Key x) (Key y)) eqn:E; [apply String.eqb_eq; exact E|].
      assert (Hx : In x l2).
      { pose proof (Hf (Key x)) as H. cbn [List.filter] in H. rewrite hasKey_self in H.
        unfold hasKey at 2 in H. rewrite String.eqb_sym, E in H.
        apply (filter_hasKey_In (Key x)). rewrite <- H. left. reflexivity. }
      assert (Hy : In y l1).
      { pose proof (Hf (Key y)) as H. cbn [List.filter] in H. rewrite hasKey_self in H.
        unfold hasKey at 1 in H. rewrite E in H.
        apply (filter_hasKey_In (Key y)). rewrite H. left. reflexivity. }
      apply F2 in Hx. apply F1 in Hy. unfold keyOrdered, keyLess in Hx, Hy.
      apply ltb_neither; assumption. }
    assert (Hxy : x = y).
    { pose proof (Hf (Key x)) as H. cbn [List.filter] in H.
      rewrite hasKey_self in H. rewrite Hk, hasKey_self in H. congruence. }
    subst y. f_equal. apply IH.
    + inversion S1; assumption.
    + inversion S2; assumption.
    + intros k. specialize (Hf k). cbn [List.filter] in Hf.
      destruct (hasKey k x); congruence.
Qed.

Lemma sortSliceStable_by_key l1 l2 :
  (forall k, List.filter (hasKey k) l1 = List.filter (hasKey k) l2) ->
  sortSliceStable l1 = sortSliceStable l2.
Proof.
  intros Hf. apply sorted_by_key_unique; try apply sortSliceStable_sorted.
  intros k. rewrite !sortSliceStable_filter. apply Hf.
Qed.

(** The entries of a map under one key do not depend on the order in
    which the map is walked. *)
Lemma filter_attrOf_perm k (m1 m2 : list (string * GoValue)) :
  Permutation m1 m2 ->
  NoDup (map fst m1) ->
  List.filter (hasKey k) (map attrOf m1) = List.filter (hasKey k) (map attrOf m2).
Proof.
  induction 1 as [|x l1 l2 Hp IH|x y l|l1 l2 l3 Hp1 IH1 Hp2 IH2]; intros Hnd.
  - reflexivity.
  - cbn [map List.filter]. rewrite IH; [reflexivity|]. inversion Hnd; assumption.
  - cbn [map List.filter].
    destruct (hasKey k (attrOf y)) eqn:Hy, (hasKey k (attrOf x)) eqn:Hx; try reflexivity.
    unfold hasKey, attrOf in Hx, Hy. cbn [Key attribute_String] in Hx, Hy.
    apply String.eqb_eq in Hx, Hy. cbn [map] in Hnd.
    apply NoDup_cons_1_1 in Hnd. exfalso. apply Hnd. rewrite Hx, Hy. constructor.
  - rewrite IH1 by exact Hnd. apply IH2.
    pose proof (Permutation_map fst Hp1) as Hm. rewrite <- Hm. exact Hnd.
Qed.

Lemma attrSnapshots_after_WithFields w l e m lv msg :
  heap w !! l = Some e ->
  lv <> LvFatal ->
  attrSnapshots (trace (fst ((l' ← WithFields l m; emitAt lv l' msg) w)))
  = attrSnapshots (trace w)
      ++ [sortSliceStable
            ((attrs e ++ map attrOf m) ++ closingAttrs (clock w) e msg (levelString lv))].
Proof.
  intros H Hlv. rewrite (bind_returned _ _ _ _ _ (WithFields_run w l e m H)).
  set (w1 := setHeap _ w).
  assert (H1 : heap w1 !! l = Some (withFieldsAdded e m)) by apply lookup_insert_eq.
  rewrite emitAt_nonfatal, (log_run w1 l _ lv msg H1 Hlv) by exact Hlv.
  cbn [fst emitted trace].
  rewrite !attrSnapshots_app, attrSnapshots_startPart, attrSnapshots_sendPart,
    attrSnapshots_spanPart_started, attrSnapshots_metricsPart.
  reflexivity.
Qed.

(** X21.  [WithFields] walks its map in whatever order [range] yields,
    and the log entry lists the fields in that order; the sorted snapshot
    handed to the span does not depend on it: two walks of the same map
    (its keys are distinct) give the same snapshot. *)
Theorem X21_snapshot_does_not_depend_on_map_order w l e m1 m2 lv msg :
  heap w !! l = Some e ->
  lv <> LvFatal ->
  NoDup (map fst m1) ->
  Permutation m1 m2 ->
  attrSnapshots (trace (fst ((l' ← WithFields l m1; emitAt lv l' msg) w)))
  = attrSnapshots (trace (fst ((l' ← WithFields l m2; emitAt lv l' msg) w)))
  /\ zapFieldLists (trace (fst ((l' ← WithFields l m1; emitAt lv l' msg) w)))
     = zapFieldLists (trace w)
         ++ [correlationFields w (emissionSpan w e) (levelString lv)
               ++ fields e ++ map fieldOf m1].
Proof.
  intros H Hlv Hnd Hp. split.
  - rewrite !(attrSnapshots_after_WithFields w l e _ lv msg H Hlv).
    f_equal. f_equal. apply sortSliceStable_by_key. intros k.
    rewrite !List.filter_app, (filter_attrOf_perm k m1 m2 Hp Hnd). reflexivity.
  - rewrite (bind_returned _ _ _ _ _ (WithFields_run w l e m1 H)).
    set (w1 := setHeap _ w).
    assert (H1 : heap w1 !! l = Some (withFieldsAdded e m1)) by apply lookup_insert_eq.
    rewrite emitAt_nonfatal, (log_run w1 l _ lv msg H1 Hlv) by exact Hlv.
    cbn [fst emitted trace].
    rewrite !zapFieldLists_app, zapFieldLists_startPart, zapFieldLists_sendPart,
      zapFieldLists_spanPart, zapFieldLists_metricsPart.
    reflexivity.
Qed.

Lemma X21_snapshot_does_not_depend_on_map_order_witness :
  attrSnapshots
    (trace (fst ((l' ← WithFields Demo.parentLoc
                          [("b", VInt 2); ("a", VInt 1); ("c", VBool true)];
                  emitAt LvInfo l' "hello") (Demo.withParent false))))
  = attrSnapshots
      (trace (fst ((l' ← WithFields Demo.parentLoc
                            [("c", VBool true); ("b", VInt 2); ("a", VInt 1)];
                    emitAt LvInfo l' "hello") (Demo.withParent false))))
  /\ zapFieldLists
       (trace (fst ((l' ← WithFields Demo.parentLoc
                             [("b", VInt 2); ("a", VInt 1); ("c", VBool true)];
                     emitAt LvInfo l' "hello") (Demo.withParent false))))
     = zapFieldLists (trace (Demo.withParent false))
         ++ [correlationFields (Demo.withParent false)
               (emissionSpan (Demo.withParent false) (Demo.parent false))
               (levelString LvInfo)
               ++ fields (Demo.parent false)
               ++ map fieldOf [("b", VInt 2); ("a", VInt 1); ("c", VBool true)]].
Proof.
  apply (X21_snapshot_does_not_depend_on_map_order (Demo.withParent false) Demo.parentLoc
           (Demo.parent false) [("b", VInt 2); ("a", VInt 1); ("c", VBool true)]
           [("c", VBool true); ("b", VInt 2); ("a", VInt 1)] LvInfo "hello").
  - reflexivity.
  - discriminate.
  - cbn [map fst].
    repeat (apply NoDup_cons_2;
            [rewrite ?not_elem_of_cons; repeat split;
             try discriminate; apply not_elem_of_nil|]).
    apply NoDup_nil_2.
  - apply Permutation_sym.
    apply (perm_trans (perm_skip ("c", VBool true)
                         (Permutation_refl [("b", VInt 2); ("a", VInt 1)]))).
    apply (perm_trans (perm_swap ("b", VInt 2) ("c", VBool true) [("a", VInt 1)])).
    apply perm_skip. apply perm_swap.
Defined.

(** ** The panic guard, when it runs *)

(** The guard from the point where its logger is resolved. *)
Lemma guard_tail_run w p e c h er :
  heap w !! p = Some e ->
  logCounter e = Some c ->
  durationHist e = Some h ->
  exists wf,
    (p' ← WithError p (Some er); Error p' "unhandled panic";;
     emit (GinAbortWithStatus 500)) w = (wf, Returned tt)
    /\ zapFieldLists (trace wf)
       = zapFieldLists (trace w)
           ++ [correlationFields w (emissionSpan w e) "error" ++ fields e ++ [zap_Error er]]
    /\ reportedErrors (trace wf) = reportedErrors (trace w) ++ [er]
    /\ recordedErrors (trace wf) = recordedErrors (trace w) ++ [(emissionSpan w e, er)]
    /\ startedSpans (trace wf)
       = startedSpans (trace w)
           ++ match span e with
              | Some _ => []
              | None => [(name e, emissionSpan w e)]
              end
    /\ last (trace wf) = Some (GinAbortWithStatus 500).
Proof.
  intros H Hc Hh.
  pose (e1 := withErrorAdded e er).
  pose (w1 := mkWorld (globalCfg w) (<[p := e1]> (heap w)) (nextSpan w) (spanIDs w)
                (clock w) (gin w)
                (trace w ++ [SentryCapture er ∅ {["error" := VString (errMsg er)]}])).
  pose (w2 := emitted w1 p e1 LvError "unhandled panic").
  exists (setTrace (trace w2 ++ [GinAbortWithStatus 500]) w2).
  split.
  - rewrite (bind_returned _ _ _ _ _ (WithError_run w p e er H)). fold e1 w1.
    assert (H1 : heap w1 !! p = Some e1) by apply lookup_insert_eq.
    assert (Hlv : LvError <> LvFatal) by discriminate.
    pose proof (log_run w1 p _ LvError "unhandled panic" H1 Hlv) as Hlog.
    assert (Hout : metricsOutcome e1 = Returned tt)
      by (unfold metricsOutcome; simpl; rewrite Hc, Hh; reflexivity).
    rewrite Hout in Hlog. unfold Error.
    change "error" with (levelString LvError).
    rewrite (bind_returned _ _ _ _ _ Hlog). reflexivity.
  - cbn [setTrace trace w2 emitted w1].
    unfold reportedErrors, recordedErrors, startedSpans.
    rewrite !zapFieldLists_app, !omap_app.
    rewrite zapFieldLists_startPart, zapFieldLists_sendPart, zapFieldLists_spanPart,
      zapFieldLists_metricsPart.
    unfold startPart, sendPart, spanPart, metricsPart, emissionFields.
    rewrite span_started, err_started.
    cbn [e1 withErrorAdded span err logCounter durationHist fields name].
    rewrite Hc, Hh.
    change (emissionSpan w1 e1) with (emissionSpan w e).
    change (correlationFields w1) with (correlationFields w).
    destruct (span e), (EnableLoki (globalCfg w1));
      cbn [omap list_omap app zapFieldLists levelString]; rewrite ?app_nil_r, <- ?app_assoc;
      (repeat split; [reflexivity ..|]); rewrite ?app_assoc; apply last_snoc.
Qed.

(** X22.  When the closure built by [RecoverPanic] does run with a panic
    in flight, it never uses the logger it was built on.  If the request
    carries an [*Eotel] with its instruments, the error "panic: <value>"
    is attached to that logger, reported once, written once at the error
    level after the logger's own fields and recorded on its span; if the
    request carries no logger, the same happens on a fresh logger named
    "panic", whose span is started for it.  In both cases the last call
    is the abort with status 500 and the closure returns. *)
Theorem X22_guard_closure_emits_once_and_aborts w l v :
  (forall p e c h,
      ctxLoggerValue (reqCtx (gin w)) = EotelPtr (Some p) ->
      heap w !! p = Some e ->
      logCounter e = Some c ->
      durationHist e = Some h ->
      snd (RecoverPanic l (Some v) w) = Returned tt
      /\ zapFieldLists (trace (fst (RecoverPanic l (Some v) w)))
         = zapFieldLists (trace w)
             ++ [correlationFields w (emissionSpan w e) "error"
                   ++ fields e ++ [zap_Error (Errorf_panic v)]]
      /\ reportedErrors (trace (fst (RecoverPanic l (Some v) w)))
         = reportedErrors (trace w) ++ [Errorf_panic v]
      /\ recordedErrors (trace (fst (RecoverPanic l (Some v) w)))
         = recordedErrors (trace w) ++ [(emissionSpan w e, Errorf_panic v)]
      /\ last (trace (fst (RecoverPanic l (Some v) w))) = Some (GinAbortWithStatus 500))
  /\ (ctxLoggerValue (reqCtx (gin w)) = NilLogger ->
      snd (RecoverPanic l (Some v) w) = Returned tt
      /\ zapFieldLists (trace (fst (RecoverPanic l (Some v) w)))
         = zapFieldLists (trace w)
             ++ [correlationFields w (rootSpan w) "error" ++ [zap_Error (Errorf_panic v)]]
      /\ reportedErrors (trace (fst (RecoverPanic l (Some v) w)))
         = reportedErrors (trace w) ++ [Errorf_panic v]
      /\ startedSpans (trace (fst (RecoverPanic l (Some v) w)))
         = startedSpans (trace w) ++ [("panic", rootSpan w)]
      /\ last (trace (fst (RecoverPanic l (Some v) w))) = Some (GinAbortWithStatus 500)).
Proof.
  split.
  - intros p e c h Hctx H Hc Hh.
    destruct (guard_tail_run w p e c h (Errorf_panic v) H Hc Hh)
      as (wf & Hrun & Hz & Hrep & Hrec & _ & Hlast).
    assert (Hg : RecoverPanic l (Some v) w = (wf, Returned tt)).
    { unfold RecoverPanic.
      assert (H1 : FromGin l "panic" w = (w, Returned (Some p)))
        by (unfold FromGin, FromContext; run; rewrite Hctx; reflexivity).
      rewrite (bind_returned _ _ _ _ _ H1).
      rewrite (bind_returned (receiver (Some p)) _ w _ p eq_refl). exact Hrun. }
    rewrite Hg. cbn [fst snd]. auto.
  - intros Hctx.
    set (p := fresh (dom (heap w))).
    set (e := newLogger w (reqCtx (gin w)) "panic").
    set (w1 := setHeap (<[p := e]> (heap w)) w).
    assert (H1 : heap w1 !! p = Some e) by apply lookup_insert_eq.
    destruct (guard_tail_run w1 p e (mkCounter "log_total") (mkHistogram "log_duration_ms")
                (Errorf_panic v) H1 eq_refl eq_refl)
      as (wf & Hrun & Hz & Hrep & _ & Hst & Hlast).
    assert (Hg : RecoverPanic l (Some v) w = (wf, Returned tt)).
    { unfold RecoverPanic.
      assert (H2 : FromGin l "panic" w = (w1, Returned (Some p)))
        by (unfold FromGin, FromContext; run; rewrite Hctx; reflexivity).
      rewrite (bind_returned _ _ _ _ _ H2).
      rewrite (bind_returned (receiver (Some p)) _ w1 _ p eq_refl). exact Hrun. }
    rewrite Hg. cbn [fst snd]. rewrite Hz, Hrep, Hst, Hlast.
    repeat split; reflexivity.
Qed.

Lemma X22_guard_closure_emits_once_and_aborts_witness :
  snd (RecoverPanic 9%positive (Some (PanicAny (VString "boom"))) (Demo.world false))
  = Returned tt
  /\ zapFieldLists
       (trace (fst (RecoverPanic 9%positive (Some (PanicAny (VString "boom")))
                      (Demo.world false))))
     = [[zap_String "trace_id" "trace-0"; zap_String "span_id" "span-0";
         zap_String "job" "job"; zap_String "service" "svc"; zap_String "level" "error";
         zap_Error (mkError "panic: boom")]]
  /\ last (trace (fst (RecoverPanic 9%positive (Some (PanicAny (VString "boom")))
                         (Demo.world false))))
     = Some (GinAbortWithStatus 500).
Proof.
  destruct (proj2 (X22_guard_closure_emits_once_and_aborts (Demo.world false) 9%positive
                     (PanicAny (VString "boom"))) eq_refl)
    as (Ho & Hz & _ & _ & Hl).
  split; [exact Ho|]. split; [exact Hz|exact Hl].
Defined.
